(** * stock-analysis: a shallow embedding of the fetch/cache pipeline,
      the analyzers' exception boundaries, the scoring engine, the run-mode
      classifier and the narrative call.

    Conventions of the embedding.

    - Python exceptions are explicit: a computation that may raise has type
      [result A]; [try ... except] is a match on that outcome.
    - A Python/NumPy float is a [pyfloat]: either [NaN] or an exact rational.
      Rounding error and infinities are outside the model; NaN and its
      propagation through arithmetic and comparisons are inside it.  What is
      proved of a float result is therefore proved of the real number that
      the double approximates.
    - A pandas DataFrame is a list of named columns of scalar cells.
    - A Python [str] is a Rocq [string]; non-ASCII literals are their UTF-8
      bytes, so [in] and [startswith] keep their meaning. *)

From Stdlib Require Import ZArith QArith Qround Qabs Lia Lqa List String Ascii Bool.
From stdpp Require Import base option list strings gmap fin_maps pretty.

Local Open Scope Z_scope.

(* ===================================================================== *)
(** * Part I. Definitions                                                 *)
(* ===================================================================== *)

(** ** Python values and exceptions *)

Inductive PyExn : Type :=
  | KeyError | ValueError | TypeError | IndexError | AttributeError
  | OverflowError | NetworkError.

Inductive result (A : Type) : Type :=
  | Ok (a : A)
  | Raise (e : PyExn).
Arguments Ok {A} a.
Arguments Raise {A} e.

(** Floats: NaN or an exact rational. *)
Inductive pyfloat : Type :=
  | NaN
  | Fin (q : Q).

Definition fbin (op : Q -> Q -> Q) (x y : pyfloat) : pyfloat :=
  match x, y with
  | Fin a, Fin b => Fin (op a b)
  | _, _ => NaN
  end.

Definition fadd := fbin Qplus.
Definition fsub := fbin Qminus.
Definition fmul := fbin Qmult.
Definition fdiv := fbin Qdiv.

Definition fabs (x : pyfloat) : pyfloat :=
  match x with Fin a => Fin (Qabs a) | NaN => NaN end.

Definition Qlt_bool (a b : Q) : bool := negb (Qle_bool b a).

(** Comparisons with NaN are false, as in IEEE 754. *)
Definition flt (x y : pyfloat) : bool :=
  match x, y with Fin a, Fin b => Qlt_bool a b | _, _ => false end.
Definition fle (x y : pyfloat) : bool :=
  match x, y with Fin a, Fin b => Qle_bool a b | _, _ => false end.
Definition fgt (x y : pyfloat) : bool := flt y x.
Definition fge (x y : pyfloat) : bool := fle y x.

(** [pd.isna] / [pd.notna] on a float. *)
Definition isna (x : pyfloat) : bool :=
  match x with NaN => true | Fin _ => false end.
Definition notna (x : pyfloat) : bool := negb (isna x).

(** A scalar cell of a DataFrame, or a scalar argument. *)
Inductive Scalar : Type :=
  | SNone
  | SInt (n : Z)
  | SFloat (x : pyfloat)
  | SStr (s : string).

(** Structured Python objects: the payload dictionaries of the analyzers
    and decoded JSON bodies. *)
#[warnings="-register-all"] Inductive PyObj : Type :=
  | VNone
  | VBool (b : bool)
  | VInt (n : Z)
  | VFloat (x : pyfloat)
  | VStr (s : string)
  | VList (l : list PyObj)
  | VDict (d : list (string * PyObj)).

(** ** DataFrames *)

Record DataFrame : Type := mkDF { df_series : list (string * list Scalar) }.

(** [pd.DataFrame()] *)
Definition empty_df : DataFrame := mkDF [].

(** [df.columns] *)
Definition df_columns (df : DataFrame) : list string := map fst (df_series df).

(** [len(df)] *)
Definition df_len (df : DataFrame) : nat :=
  match df_series df with
  | [] => 0%nat
  | (_, c) :: _ => length c
  end.

(** [df.empty]: some axis has length zero. *)
Definition df_empty (df : DataFrame) : bool :=
  match df_series df with
  | [] => true
  | (_, c) :: _ => match c with [] => true | _ :: _ => false end
  end.

Fixpoint assoc_lookup {V} (k : string) (l : list (string * V)) : option V :=
  match l with
  | [] => None
  | (k', v) :: t => if String.eqb k k' then Some v else assoc_lookup k t
  end.

(** [df[col]]: raises KeyError when the column is absent. *)
Definition df_getcol (df : DataFrame) (col : string) : result (list Scalar) :=
  match assoc_lookup col (df_series df) with
  | Some c => Ok c
  | None => Raise KeyError
  end.

Fixpoint assoc_set {V} (k : string) (v : V) (l : list (string * V))
  : list (string * V) :=
  match l with
  | [] => [(k, v)]
  | (k', v') :: t =>
      if String.eqb k k' then (k, v) :: t else (k', v') :: assoc_set k v t
  end.

(** [df[col] = values]: replaces the column in place or appends it. *)
Definition df_setcol (df : DataFrame) (col : string) (c : list Scalar)
  : DataFrame :=
  mkDF (assoc_set col c (df_series df)).

(** [df.rename(columns=mapping)] *)
Definition df_rename (mapping : list (string * string)) (df : DataFrame)
  : DataFrame :=
  mkDF (map (fun '(name, c) =>
               (match assoc_lookup name mapping with
                | Some name' => name'
                | None => name
                end, c))
            (df_series df)).

(** ** main.py: [_safe_ak_call] (lines 44-56)

    [ak] is the provider module seen as a name table: [getattr(ak, name,
    None)] is a lookup.  A registered operation either raises or returns
    [None] or a frame.  The function is paired with the list of the
    operations it invoked, in order. *)

Section SafeAkCall.
Context {Args : Type}.

Definition AkFunc : Type := Args -> result (option DataFrame).

Fixpoint _safe_ak_call (ak : gmap string AkFunc) (func_names : list string)
    (args : Args) : list string * result DataFrame :=
  match func_names with
  | [] => ([], Ok empty_df)
  | name :: rest =>
      match ak !! name with
      | None => _safe_ak_call ak rest args
      | Some func =>
          let continue :=
            let '(calls, r) := _safe_ak_call ak rest args in
            (name :: calls, r) in
          match func args with
          | Ok (Some df) =>
              if negb (df_empty df) then ([name], Ok df) else continue
          | Ok None => continue
          | Raise _ => continue
          end
      end
  end.
End SafeAkCall.

(** ** main.py: [_pick_col] (lines 59-64) *)

Fixpoint _pick_col (df : DataFrame) (candidates : list string)
  : option string :=
  match candidates with
  | [] => None
  | col :: rest =>
      if bool_decide (col ∈ df_columns df) then Some col
      else _pick_col df rest
  end.

(** ** main.py: [_normalize_flow_value] (lines 67-80)

    The two library parsers of strings are parameters: [float_of_str s] is
    [float(s)] with [None] for [ValueError], and [to_numeric_coerce s] is
    [pd.to_numeric(s, errors="coerce")]. *)

Section NormalizeFlow.
Variable float_of_str : string -> option pyfloat.
Variable to_numeric_coerce : string -> pyfloat.

(** [float(n)] of a Python [int] raises [OverflowError] ("int too large to
    convert to float") when [n] rounds, half to even on 53 bits, to a
    magnitude of 2^1024 or more: from 2^1024 - 2^970 on. *)
Definition int_too_large (n : Z) : bool :=
  2 ^ 1024 - 2 ^ 970 <=? Z.abs n.

(** [float(value)] *)
Definition py_float (value : Scalar) : result pyfloat :=
  match value with
  | SNone => Raise TypeError
  | SInt n =>
      if int_too_large n then Raise OverflowError else Ok (Fin (inject_Z n))
  | SFloat x => Ok x
  | SStr s =>
      match float_of_str s with
      | Some x => Ok x
      | None => Raise ValueError
      end
  end.

(** [pd.to_numeric(value, errors="coerce")] on a scalar *)
Definition pd_to_numeric (value : Scalar) : pyfloat :=
  match value with
  | SNone => NaN
  | SInt n => Fin (inject_Z n)
  | SFloat x => x
  | SStr s => to_numeric_coerce s
  end.

Definition _normalize_flow_value (value : Scalar) : result pyfloat :=
  match value with
  | SNone => Ok NaN
  | _ =>
      let parsed :=
        match py_float value with
        | Ok x => Ok x
        | Raise TypeError | Raise ValueError => Ok (pd_to_numeric value)
        | Raise e => Raise e
        end in
      match parsed with
      | Raise e => Raise e
      | Ok val =>
          if isna val then Ok NaN
          else if fgt (fabs val) (Fin 1e6) then Ok (fdiv val (Fin 1e8))
          else Ok val
      end
  end.
End NormalizeFlow.

(** ** main.py: the bucketed cache, [cache_data] (lines 94-129)

    The world of the cache: the module-level dictionary [_cache], the pickle
    files under [../cache], and a counter of producer invocations.  A
    producer is a script of outcomes, indexed by the number of producer
    calls made before it. *)

Record Clock : Type := mkClock {
  hour_label : string;   (* datetime.now().strftime("%Y%m%d%H") *)
  day_label : string     (* datetime.now().strftime("%Y%m%d") *)
}.

Record CacheWorld : Type := mkWorld {
  memo : gmap string DataFrame;
  files : gmap string DataFrame;
  producer_calls : nat
}.

Fixpoint str_join (sep : string) (l : list string) : string :=
  match l with
  | [] => ""
  | [s] => s
  | s :: t => s +:+ sep +:+ str_join sep t
  end.

(** [params_str] of lines 104-106, from the rendered arguments. *)
Definition params_str (args : list string) (kwargs : list (string * string))
  : string :=
  str_join "_" args +:+ str_join "_" (map (fun '(k, v) => k +:+ "_" +:+ v) kwargs).

Definition bucket_label (clock : Clock) (frequency : string) : string :=
  if String.eqb frequency "hourly" then hour_label clock else day_label clock.

Definition cache_filepath (filename : string) (args : list string)
    (kwargs : list (string * string)) (time_str : string) : string :=
  "../cache/" +:+ filename +:+ "_" +:+ params_str args kwargs +:+ "_"
    +:+ time_str +:+ ".pkl".

Definition cache_data (clock : Clock) (filename : string)
    (data_func : nat -> result DataFrame)
    (args : list string) (kwargs : list (string * string))
    (frequency : string) (w : CacheWorld) : result DataFrame * CacheWorld :=
  let filepath :=
    cache_filepath filename args kwargs (bucket_label clock frequency) in
  match memo w !! filepath with
  | Some data => (Ok data, w)
  | None =>
      match files w !! filepath with
      | Some data =>
          (Ok data, mkWorld (<[filepath := data]> (memo w)) (files w)
                            (producer_calls w))
      | None =>
          match data_func (producer_calls w) with
          | Ok data =>
              (Ok data, mkWorld (<[filepath := data]> (memo w))
                                (<[filepath := data]> (files w))
                                (S (producer_calls w)))
          | Raise _ =>
              (Ok empty_df, mkWorld (memo w) (files w) (S (producer_calls w)))
          end
      end
  end.

(** ** main.py: [get_incremental_daily_data] (lines 132-178)

    A history table is a list of rows; [date_of] reads the date column of a
    row as a day number.  [disk] holds the pickled base tables. *)

Section IncrementalHistory.
Context {Row : Type}.
Variable date_of : Row -> Z.
(** The day number of the fixed start date "19900101". *)
Variable date_19900101 : Z.

(** [drop_duplicates(subset=[date_col_name], keep="last")] *)
Fixpoint drop_duplicates_last (t : list Row) : list Row :=
  match t with
  | [] => []
  | r :: rest =>
      if existsb (fun r' => date_of r' =? date_of r) rest
      then drop_duplicates_last rest
      else r :: drop_duplicates_last rest
  end.

(** [pd.concat([df_base, df_new]).drop_duplicates(...)], lines 158-160 *)
Definition merge_history (df_base df_new : list Row) : list Row :=
  drop_duplicates_last (df_base ++ df_new).

(** [pd.to_datetime(df_base[date_col_name]).max()]; a table without rows
    has no last date and line 148 raises. *)
Definition max_date (t : list Row) : option Z :=
  match t with
  | [] => None
  | r :: rest => Some (fold_left Z.max (map date_of rest) (date_of r))
  end.

Definition base_filepath (base_filename : string) : string :=
  "../cache/" +:+ base_filename +:+ "_base.pkl".

Definition table_empty (t : list Row) : bool :=
  match t with [] => true | _ :: _ => false end.

Definition get_incremental_daily_data (base_filename : string)
    (data_func : Z -> result (list Row)) (today : Z)
    (disk : gmap string (list Row))
  : result (list Row) * gmap string (list Row) :=
  let path := base_filepath base_filename in
  match disk !! path with
  | Some df_base =>
      match max_date df_base with
      | None => (Raise ValueError, disk)
      | Some last_date =>
          let start_date := last_date + 1 in
          if start_date <=? today then
            match data_func start_date with
            | Ok df_new =>
                if negb (table_empty df_new) then
                  let df_updated := merge_history df_base df_new in
                  (Ok df_updated, <[path := df_updated]> disk)
                else (Ok df_base, disk)
            | Raise _ => (Ok df_base, disk)
            end
          else (Ok df_base, disk)
      end
  | None =>
      match data_func date_19900101 with
      | Ok df_full => (Ok df_full, <[path := df_full]> disk)
      | Raise _ => (Ok [], disk)
      end
  end.
End IncrementalHistory.

(** Whether a table carries a row of date [k]. *)
Definition has_date {Row : Type} (date_of : Row -> Z) (k : Z) (t : list Row)
  : bool :=
  existsb (fun r' => date_of r' =? k) t.

(** What one candidate contributes to the resolver: the frame it returns
    when it is registered, does not raise and returns a non-empty frame. *)
Definition usable {Args : Type} (ak : gmap string (@AkFunc Args))
    (args : Args) (name : string) : option DataFrame :=
  match ak !! name with
  | Some func =>
      match func args with
      | Ok (Some df) => if df_empty df then None else Some df
      | _ => None
      end
  | None => None
  end.

Definition registered {Args : Type} (ak : gmap string (@AkFunc Args))
    (name : string) : bool :=
  match ak !! name with Some _ => true | None => false end.

(** A raw value that [float] refuses with [OverflowError]: a Python [int]
    beyond the range of a double. *)
Definition float_overflows (value : Scalar) : bool :=
  match value with
  | SInt n => int_too_large n
  | _ => false
  end.

(** The number a raw flow value stands for, when [float] does not overflow
    on it: the value [float] gives it, or else the value
    [pd.to_numeric(errors="coerce")] gives it. *)
Definition parsed_value (float_of_str : string -> option pyfloat)
    (to_numeric_coerce : string -> pyfloat) (value : Scalar) : pyfloat :=
  match value with
  | SNone => NaN
  | SInt n => Fin (inject_Z n)
  | SFloat x => x
  | SStr s =>
      match float_of_str s with
      | Some x => x
      | None => to_numeric_coerce s
      end
  end.

(** ** Library functions taken as parameters

    What pandas and Python do with text is not in the repository: reading a
    number or a date from a string cell and rendering a float. *)

Record Library : Type := mkLibrary {
  to_numeric_str : string -> pyfloat;     (* pd.to_numeric(s, errors="coerce") *)
  to_datetime_coerce : Scalar -> option Z; (* pd.to_datetime(c, errors="coerce"), None for NaT *)
  float_repr : pyfloat -> string;         (* str(x) *)
  format_1f : pyfloat -> string;          (* f"{x:.1f}" *)
  format_2f : pyfloat -> string           (* f"{x:.2f}" *)
}.

(** [pd.to_numeric(column, errors="coerce")] cell by cell *)
Definition cell_to_numeric (lib : Library) (c : Scalar) : pyfloat :=
  pd_to_numeric (to_numeric_str lib) c.

(** Arithmetic on a cell: a string or [None] cell raises TypeError. *)
Definition cell_float (c : Scalar) : result pyfloat :=
  match c with
  | SInt n => Ok (Fin (inject_Z n))
  | SFloat x => Ok x
  | SNone | SStr _ => Raise TypeError
  end.

(** [str(c)], as [astype(str)] applies it *)
Definition cell_str (lib : Library) (c : Scalar) : string :=
  match c with
  | SNone => "None"
  | SInt n => pretty n
  | SFloat x => float_repr lib x
  | SStr s => s
  end.

Fixpoint zeros (n : nat) : string :=
  match n with
  | O => ""
  | S n' => String "0" (zeros n')
  end.

(** [Series.str.zfill(width)]: pad with zeros on the left. *)
Definition zfill (width : nat) (s : string) : string :=
  zeros (width - String.length s) +:+ s.

(** [Series.fillna(0)] *)
Definition fillna0 (x : pyfloat) : pyfloat :=
  match x with NaN => Fin 0 | Fin q => Fin q end.

(** ** Percentile rank, rounding and sorting, as pandas computes them *)

Definition count_fin (f : Q -> bool) (xs : list pyfloat) : Z :=
  Z.of_nat (length (List.filter
                      (fun x => match x with Fin q => f q | NaN => false end)
                      xs)).

(** [Series.rank(pct=True)]: average rank among the non-missing values,
    divided by their number; a missing value has a missing rank. *)
Definition rank_pct (xs : list pyfloat) : list pyfloat :=
  let n := count_fin (fun _ => true) xs in
  map (fun x =>
         match x with
         | NaN => NaN
         | Fin q =>
             let less := count_fin (fun q' => Qlt_bool q' q) xs in
             let equal := count_fin (fun q' => Qeq_bool q' q) xs in
             Fin ((inject_Z less + (inject_Z equal + 1) / 2) / inject_Z n)
         end) xs.

Definition round_half_even (q : Q) : Z :=
  let f := Qfloor q in
  let d := (q - inject_Z f)%Q in
  if Qlt_bool d (1 # 2) then f
  else if Qlt_bool (1 # 2) d then f + 1
  else if Z.even f then f else f + 1.

(** [Series.round(2)] on the real number: the nearest multiple of 0.01, a
    tie going to the even one.  The code rounds the double, which at a
    decimal tie can lie on the other side of it: 0.7 x 84.375 + 0.3 x 9.375
    is 61.875 and rounds to 61.88, the doubles give 61.87499999999999 and
    61.87.  The last digit is thus the ideal one, not always the double's;
    bounds and NaN are not affected. *)
Definition fround2 (x : pyfloat) : pyfloat :=
  match x with
  | NaN => NaN
  | Fin q => Fin (inject_Z (round_half_even (q * 100)) / 100)
  end.

(** [x] comes strictly before [y] in a descending sort with NaN last. *)
Definition before_desc (x y : pyfloat) : bool :=
  match x, y with
  | Fin a, Fin b => Qlt_bool b a
  | Fin _, NaN => true
  | NaN, _ => false
  end.

Fixpoint insert_desc (key : nat -> pyfloat) (i : nat) (l : list nat)
  : list nat :=
  match l with
  | [] => [i]
  | j :: t =>
      if before_desc (key j) (key i) then j :: insert_desc key i t
      else i :: j :: t
  end.

(** Row order of [sort_values(ascending=False)].  pandas leaves the order of
    equal keys to its sorting routine; here equal keys keep their order. *)
Definition argsort_desc (keys : list pyfloat) : list nat :=
  fold_right (insert_desc (fun i => nth i keys NaN)) []
             (seq 0 (length keys)).

Definition df_take (order : list nat) (df : DataFrame) : DataFrame :=
  mkDF (map (fun '(name, c) => (name, map (fun i => nth i c SNone) order))
            (df_series df)).

(** ** main.py: [analyze_sector_strength], the scoring of lines 1187-1207 *)

(** [资金强度分]: lines 1192-1200. *)
Definition fund_strength (lib : Library) (industry_flow : DataFrame)
  : list pyfloat :=
  match assoc_lookup "主力净流入" (df_series industry_flow) with
  | Some col =>
      let fund_net := map (cell_to_numeric lib) col in
      if existsb notna fund_net
      then map (fun r => fmul r (Fin 100)) (rank_pct fund_net)
      else repeat (Fin 50) (df_len industry_flow)
  | None => repeat (Fin 50) (df_len industry_flow)
  end.

(** The cleaned count column of lines 1188-1190. *)
Definition numeric_counts (lib : Library) (counts : list Scalar)
  : list pyfloat :=
  map (fun c => fillna0 (cell_to_numeric lib c)) counts.

(** [人气强度分]: line 1203. *)
Definition popularity_strength (counts_num : list pyfloat) : list pyfloat :=
  map (fun r => fmul r (Fin 100)) (rank_pct counts_num).

(** [热力值]: lines 1205-1207, in real arithmetic (see [fround2]). *)
Definition heat_values (pop fund : list pyfloat) : list pyfloat :=
  map (fun '(p, f) => fround2 (fadd (fmul (Fin 0.7) p) (fmul (Fin 0.3) f)))
      (combine pop fund).

Definition float_cells (xs : list pyfloat) : list Scalar := map SFloat xs.

Definition score_sectors (lib : Library) (industry_flow : DataFrame)
  : result DataFrame :=
  match df_getcol industry_flow "量价齐升家数" with
  | Raise e => Raise e
  | Ok counts =>
      let counts_num := numeric_counts lib counts in
      let flow1 :=
        df_setcol industry_flow "量价齐升家数" (float_cells counts_num) in
      let fund := fund_strength lib flow1 in
      let flow2 := df_setcol flow1 "资金强度分" (float_cells fund) in
      let pop := popularity_strength counts_num in
      let flow3 := df_setcol flow2 "人气强度分" (float_cells pop) in
      let heat := heat_values pop fund in
      Ok (df_setcol flow3 "热力值" (float_cells heat))
  end.

(** A numeric cell read as a sort key. *)
Definition cell_key (c : Scalar) : pyfloat :=
  match c with
  | SInt n => Fin (inject_Z n)
  | SFloat x => x
  | SNone | SStr _ => NaN
  end.

(** [df.sort_values(by=col, ascending=False)] *)
Definition sort_values_desc (df : DataFrame) (col : string)
  : result DataFrame :=
  match df_getcol df col with
  | Raise e => Raise e
  | Ok c => Ok (df_take (argsort_desc (map cell_key c)) df)
  end.

(** ** main.py: the analyzer object *)

Inductive RunMode : Type :=
  | LIVE_MORNING | MIDDAY_SUMMARY | LIVE_AFTERNOON | POST_MARKET.

(** An entry of [analysis_result["etf_technical"]]. *)
Record EtfTech : Type := mkEtf {
  etf_name : string;
  etf_code : string;
  technical_status : string;
  base_score : pyfloat;
  change_pct : pyfloat
}.

(** A row of [analysis_result["final_ranking"]]. *)
Record ScoreRow : Type := mkScore {
  score_name : string;
  score_code : string;
  score_change : pyfloat;
  final_score : pyfloat;
  score_summary : string;
  score_theme : string
}.

(** The values stored in [analysis_result].  [RDict ∅] is [{}]. *)
Inductive ResultValue : Type :=
  | RDict (d : gmap string PyObj)
  | RFrame (df : DataFrame)
  | REtfs (l : list EtfTech)
  | RRanking (l : list ScoreRow)
  | RText (s : string).

(** [stock_to_industry_map] is the dictionary built by
    [_fetch_full_industry_map], or the empty frame that [cache_data] hands
    back when that producer raised (lines 245-247 with line 129). *)
Inductive IndustryMap : Type :=
  | IndustryDict (m : gmap string string)
  | IndustryFrame (df : DataFrame).

Record Analyzer : Type := mkAnalyzer {
  data : gmap string DataFrame;
  analysis_result : gmap string ResultValue;
  stock_to_industry_map : IndustryMap;
  run_mode : option RunMode;
  is_trading_day : option bool
}.

(** [AdvancedStockAnalyzer()] *)
Definition new_analyzer : Analyzer :=
  mkAnalyzer ∅ ∅ (IndustryDict ∅) None None.

(** [self.analysis_result[key] = v] *)
Definition set_result (key : string) (v : ResultValue) (a : Analyzer)
  : Analyzer :=
  mkAnalyzer (data a) (<[key := v]> (analysis_result a))
             (stock_to_industry_map a) (run_mode a) (is_trading_day a).

(** [self.data[key] = df] *)
Definition set_data (key : string) (df : DataFrame) (a : Analyzer)
  : Analyzer :=
  mkAnalyzer (<[key := df]> (data a)) (analysis_result a)
             (stock_to_industry_map a) (run_mode a) (is_trading_day a).

(** A method of the analyzer: it may raise, and leaves the object in some
    state either way. *)
Definition Step : Type := Analyzer -> result unit * Analyzer.

Definition then_step (s1 s2 : Step) : Step :=
  fun a =>
    match s1 a with
    | (Ok _, a') => s2 a'
    | (Raise e, a') => (Raise e, a')
    end.

Notation "s1 >>> s2" := (then_step s1 s2) (at level 62, right associativity).

(** ** main.py: [_is_trade_day] (lines 258-270) *)

Definition _is_trade_day (lib : Library) (calendar : result DataFrame)
    (date_obj : Z) : option bool :=
  match calendar with
  | Raise _ => None
  | Ok df =>
      if df_empty df then None
      else
        match _pick_col df ["trade_date"; "日期"; "date"] with
        | None => None
        | Some date_col =>
            if String.eqb date_col "" then None
            else
              match df_getcol df date_col with
              | Raise _ => None
              | Ok cells =>
                  let dates := omap (to_datetime_coerce lib) cells in
                  Some (bool_decide (date_obj ∈ dates))
              end
        end
  end.

(** ** main.py: the analyzers wrapped in [try ... except Exception]

    Every analyzer below has the shape
    [try: body; self.analysis_result[key] = payload
     except Exception: self.analysis_result[key] = {}].
    The body of [analyze_market_sentiment] is written out further down; the
    bodies of the other [try] blocks are parameters: each reads the analyzer
    and either yields its payload dictionary or raises. *)

Record Bodies : Type := mkBodies {
  liquidity_body : Analyzer -> result (gmap string PyObj);
  turnover_body : Analyzer -> result (gmap string PyObj);
  margin_trading_body : Analyzer -> result (gmap string PyObj);
  northbound_body : Analyzer -> result (gmap string PyObj);
  intermarket_body : Analyzer -> result (gmap string PyObj);
  style_body : Analyzer -> result (gmap string PyObj);
  limitup_body : Analyzer -> result (gmap string PyObj);
  market_stage_body : Analyzer -> result (gmap string PyObj);
  AI_TOOL_AVAILABLE : bool;
  conclusion_body : Analyzer -> result string;
  print_report_body : Analyzer -> result unit
}.

(** [try: ...; self.analysis_result[key] = payload
     except Exception: self.analysis_result[key] = {}] *)
Definition guarded (key : string)
    (body : Analyzer -> result (gmap string PyObj)) : Step :=
  fun a =>
    match body a with
    | Ok payload => (Ok tt, set_result key (RDict payload) a)
    | Raise _ => (Ok tt, set_result key (RDict ∅) a)
    end.

Definition analyze_market_liquidity (b : Bodies) : Step :=
  guarded "liquidity" (liquidity_body b).
Definition analyze_market_turnover (b : Bodies) : Step :=
  guarded "turnover" (turnover_body b).
Definition analyze_margin_trading (b : Bodies) : Step :=
  guarded "margin_trading" (margin_trading_body b).
Definition analyze_northbound_fund_flow (b : Bodies) : Step :=
  guarded "northbound" (northbound_body b).
Definition analyze_intermarket_relationship (b : Bodies) : Step :=
  guarded "intermarket" (intermarket_body b).
Definition analyze_market_style (b : Bodies) : Step :=
  guarded "style" (style_body b).
Definition analyze_limitup_structure (b : Bodies) : Step :=
  guarded "limitup" (limitup_body b).
Definition analyze_market_stage (b : Bodies) : Step :=
  guarded "market_stage" (market_stage_body b).

(** *** [analyze_market_sentiment] (lines 1077-1150) *)

Notation "'let?' x ':=' m 'in' k" :=
  (match m with Ok x => k | Raise e => Raise e end)
  (at level 10, x pattern, m at level 100, k at level 200).

(** A Python number read for arithmetic or comparison; anything else
    raises TypeError. *)
Definition obj_float (v : PyObj) : result pyfloat :=
  match v with
  | VInt n => Ok (Fin (inject_Z n))
  | VFloat x => Ok x
  | VBool b => Ok (Fin (if b then 1 else 0))
  | _ => Raise TypeError
  end.

(** [f"{v}"] for the values the limit-up analyzer stores. *)
Definition obj_str (lib : Library) (v : PyObj) : string :=
  match v with
  | VNone => "None"
  | VBool true => "True"
  | VBool false => "False"
  | VInt n => pretty n
  | VFloat x => float_repr lib x
  | VStr s => s
  | VList _ => "[...]"
  | VDict _ => "{...}"
  end.

(** [df[df[mask_col] == target][value_col]] *)
Definition rows_where (mask values : list Scalar) (target : string)
  : list Scalar :=
  map snd (List.filter
             (fun '(m, _) =>
                match m with SStr s => String.eqb s target | _ => false end)
             (combine mask values)).

(** [d.get(key)], with a stored [None] read as absent. *)
Definition get_not_none (d : gmap string PyObj) (key : string)
  : option PyObj :=
  match d !! key with
  | Some VNone | None => None
  | Some v => Some v
  end.

Definition sentiment_body (lib : Library) (a : Analyzer)
  : result (gmap string PyObj) :=
  match data a !! "market_activity" with
  | None => Raise ValueError
  | Some activity_df =>
  if df_empty activity_df then Raise ValueError else
  let? items := df_getcol activity_df "item" in
  let? values := df_getcol activity_df "value" in
  match rows_where items values "上涨", rows_where items values "下跌" with
  | up_cell :: _, down_cell :: _ =>
  let? up_count := cell_float up_cell in
  let? down_count := cell_float down_cell in
  let total := fadd up_count down_count in
  let profit_effect :=
    if fgt total (Fin 0)
    then fround2 (fmul (fdiv up_count total) (Fin 100))
    else Fin 50 in
  let ljqs_count := df_len (default empty_df (data a !! "rank_ljqs")) in
  let? limitup :=
    match analysis_result a !! "limitup" with
    | None => Ok ∅
    | Some (RDict d) => Ok d
    | Some _ => Raise AttributeError
    end in
  let limit_up_count := default (VInt 0) (limitup !! "limit_up_count") in
  let limit_down_count := default (VInt 0) (limitup !! "limit_down_count") in
  let break_rate := get_not_none limitup "break_rate" in
  let streak_high := get_not_none limitup "streak_high" in
  match data a !! "congestion" with
  | None => Raise ValueError
  | Some congestion_df =>
  if df_empty congestion_df then Raise ValueError else
  let? congestion_col := df_getcol congestion_df "congestion" in
  let? last_cell := cell_float (List.last congestion_col SNone) in
  let congestion := fmul last_cell (Fin 100) in
  let pct := float_repr lib profit_effect +:+ "%" in
  let? greedy :=
    if fgt profit_effect (Fin 65)
    then let? n := obj_float limit_up_count in Ok (fgt n (Fin 80))
    else Ok false in
  let '(sentiment, reason0) :=
    if greedy then ("贪婪", ["赚钱效应强(" +:+ pct +:+ ")"])
    else if fgt profit_effect (Fin 50)
      then ("乐观", ["赚钱效应较好(" +:+ pct +:+ ")"])
    else if fle (Fin 40) profit_effect && fle profit_effect (Fin 50)
      then ("中性偏冷", ["赚钱效应一般(" +:+ pct +:+ ")"])
    else if flt profit_effect (Fin 40)
      then ("恐慌", ["赚钱效应差(" +:+ pct +:+ ")"])
    else ("中性", []) in
  let? ups := obj_float limit_up_count in
  let reason1 :=
    if fge ups (Fin 60)
    then ["涨停家数活跃(" +:+ obj_str lib limit_up_count +:+ ")"] else [] in
  let? downs := obj_float limit_down_count in
  let reason2 :=
    if fge downs (Fin 20)
    then ["跌停家数偏多(" +:+ obj_str lib limit_down_count +:+ ")"] else [] in
  let reason3 :=
    match streak_high with
    | Some h => ["连板高度" +:+ obj_str lib h]
    | None => []
    end in
  let? reason4 :=
    match break_rate with
    | Some r =>
        let? x := obj_float r in
        Ok (if fge x (Fin 35)
            then ["炸板率偏高(" +:+ obj_str lib r +:+ "%)"] else [])
    | None => Ok []
    end in
  let reason5 :=
    if fgt congestion (Fin 90)
    then ["拥挤度过高(" +:+ format_1f lib congestion +:+ "%),警惕回调"]
    else if flt congestion (Fin 20)
    then ["拥挤度较低(" +:+ format_1f lib congestion +:+ "%),或存机会"]
    else [] in
  let reasons := reason0 ++ reason1 ++ reason2 ++ reason3 ++ reason4 ++ reason5 in
  let? break_rate_text :=
    match break_rate with
    | Some r => let? x := obj_float r in Ok (format_2f lib x +:+ "%")
    | None => Ok "未知"
    end in
  Ok (<["综合情绪" := VStr sentiment]>
     (<["情绪摘要" := VStr (str_join " | " reasons)]>
     (<["赚钱效应" := VStr pct]>
     (<["量价齐升家数" := VInt (Z.of_nat ljqs_count)]>
     (<["涨停家数" := limit_up_count]>
     (<["跌停家数" := limit_down_count]>
     (<["炸板率" := VStr break_rate_text]>
     (<["连板高度" := default (VStr "未知") streak_high]>
     (<["大盘拥挤度" := VStr (format_2f lib congestion +:+ "%")]> ∅)))))))))
  end
  | _, _ => Raise ValueError
  end
  end.

Definition analyze_market_sentiment (lib : Library) : Step :=
  guarded "sentiment" (sentiment_body lib).

(** [analyze_conclusion] (lines 1432-1572) *)
Definition analyze_conclusion (b : Bodies) : Step :=
  fun a =>
    if negb (AI_TOOL_AVAILABLE b) then
      (Ok tt, set_result "conclusion_raw" (RText "{}") a)
    else
      match conclusion_body b a with
      | Ok content_string =>
          (Ok tt, set_result "conclusion_raw" (RText content_string) a)
      | Raise _ =>
          (Ok tt, set_result "conclusion_raw"
                    (RText "AI分析模块出现异常，请检查日志。") a)
      end.

(** [print_report] reads the results and writes the report file. *)
Definition print_report (b : Bodies) : Step :=
  fun a => (print_report_body b a, a).

(** ** main.py: [analyze_sector_strength] (lines 1152-1211)

    This method has no [try]: what its body raises leaves the method. *)

(** Truth value of [self.stock_to_industry_map]: a dictionary is true when
    it has entries; the truth value of a DataFrame raises ValueError. *)
Definition industry_map_truth (m : IndustryMap) : result bool :=
  match m with
  | IndustryDict d => Ok (negb (bool_decide (d = ∅)))
  | IndustryFrame _ => Raise ValueError
  end.

Definition industry_of (m : IndustryMap) (code : string) : option string :=
  match m with
  | IndustryDict d => d !! code
  | IndustryFrame _ => None
  end.

Definition option_str_cell (o : option string) : Scalar :=
  match o with Some s => SStr s | None => SFloat NaN end.

(** Lines 1168-1183: the codes of the co-rising instruments are mapped to
    industries, counted per industry and joined to the flow table by sector
    name.  The two new columns of [ljqs_df] are written into the frame held
    in [self.data]. *)
Definition attach_ljqs_counts (lib : Library) (ljqs_df industry_flow : DataFrame)
    (a : Analyzer) : result DataFrame * Analyzer :=
  match df_getcol ljqs_df "股票代码" with
  | Raise e => (Raise e, a)
  | Ok raw =>
      let codes := map (fun c => zfill 6 (cell_str lib c)) raw in
      let industries := map (industry_of (stock_to_industry_map a)) codes in
      let ljqs_df' :=
        df_setcol (df_setcol ljqs_df "代码" (map SStr codes))
                  "精确行业" (map option_str_cell industries) in
      let a' := set_data "rank_ljqs" ljqs_df' a in
      match df_getcol industry_flow "板块名称" with
      | Raise e => (Raise e, a')
      | Ok names =>
          let count_of (nm : string) : nat :=
            length (List.filter
                      (fun i => bool_decide (i = Some nm)) industries) in
          let key_cell (c : Scalar) : Scalar :=
            match c with
            | SStr nm => if (0 <? count_of nm)%nat then SStr nm else SFloat NaN
            | _ => SFloat NaN
            end in
          let count_cell (c : Scalar) : Scalar :=
            match c with
            | SStr nm => SFloat (Fin (inject_Z (Z.of_nat (count_of nm))))
            | _ => SFloat (Fin 0)
            end in
          (Ok (df_setcol (df_setcol industry_flow "精确行业" (map key_cell names))
                         "量价齐升家数" (map count_cell names)), a')
      end
  end.

Definition rename_dict : list (string * string) :=
  [("名称", "板块名称"); ("涨跌幅", "板块涨跌幅");
   ("今日主力净流入-净额", "主力净流入")].

Definition analyze_sector_strength (lib : Library) : Step :=
  fun a =>
    match data a !! "industry_fund_flow" with
    | None => (Ok tt, set_result "sector_heat_map" (RFrame empty_df) a)
    | Some industry_flow =>
        if df_empty industry_flow then
          (Ok tt, set_result "sector_heat_map" (RFrame empty_df) a)
        else
          let industry_flow := df_rename rename_dict industry_flow in
          let ljqs_df := default empty_df (data a !! "rank_ljqs") in
          let use_ljqs :=
            if df_empty ljqs_df then Ok false
            else industry_map_truth (stock_to_industry_map a) in
          match use_ljqs with
          | Raise e => (Raise e, a)
          | Ok use =>
              let '(joined, a1) :=
                if use then attach_ljqs_counts lib ljqs_df industry_flow a
                else (Ok (df_setcol industry_flow "量价齐升家数"
                            (repeat (SInt 0) (df_len industry_flow))), a) in
              match joined with
              | Raise e => (Raise e, a1)
              | Ok flow =>
                  match score_sectors lib flow with
                  | Raise e => (Raise e, a1)
                  | Ok scored =>
                      match sort_values_desc scored "热力值" with
                      | Raise e => (Raise e, a1)
                      | Ok sorted =>
                          (Ok tt,
                           set_result "sector_heat_map" (RFrame sorted) a1)
                      end
                  end
              end
          end
    end.

(** ** main.py: [get_etf_sector_and_theme] (lines 1327-1371) *)

(** [kw in etf_name] *)
Definition str_contains (kw s : string) : bool :=
  match String.index 0 kw s with Some _ => true | None => false end.

Definition any_keyword_in (keywords : list string) (etf_name : string) : bool :=
  existsb (fun kw => str_contains kw etf_name) keywords.

Definition map_rules : list ((string * string) * list string) :=
  [(("证券", "大金融"), ["证券"; "券商"]);
   (("保险", "大金融"), ["保险"]);
   (("银行", "大金融"), ["银行"]);
   (("半导体", "科技/半导体"), ["半导体"; "芯片"]);
   (("计算机", "科技/半导体"),
      ["计算机"; "信创"; "软件"; "云计算"; "AI"; "人工智能"]);
   (("消费电子", "科技/半导体"), ["消费电子"]);
   (("通信设备", "科技/半导体"), ["5G"; "通信"]);
   (("光学光电子", "科技/半导体"), ["光学"]);
   (("光伏设备", "大新能源"), ["光伏"]);
   (("电池", "大新能源"), ["电池"; "锂电"; "新能车"; "电动车"]);
   (("电网设备", "大新能源"), ["电网"; "特高压"]);
   (("食品饮料", "大消费"), ["食品"; "饮料"; "白酒"; "消费"]);
   (("家电行业", "大消费"), ["家电"]);
   (("美容护理", "大消费"), ["医美"; "美容"]);
   (("医药商业", "医疗健康"), ["医药"]);
   (("医疗服务", "医疗健康"), ["医疗"]);
   (("中药", "医疗健康"), ["中药"]);
   (("房地产开发", "房地产"), ["地产"; "房地产"]);
   (("游戏", "传媒/游戏"), ["游戏"]);
   (("文化传媒", "传媒/游戏"), ["传媒"; "影视"]);
   (("国防军工", "军工"), ["军工"; "国防"]);
   (("煤炭行业", "周期/材料"), ["煤炭"]);
   (("有色金属", "周期/材料"), ["有色"]);
   (("钢铁行业", "周期/材料"), ["钢铁"]);
   (("化学原料", "周期/材料"), ["化工"]);
   (("工程机械", "高端制造"), ["机械"; "制造"]);
   (("专用设备", "高端制造"), ["设备"]);
   (("物流行业", "交通运输"), ["运输"; "物流"; "航运"; "港口"]);
   (("农牧饲渔", "大农业"), ["农业"; "养殖"; "畜牧"])].

Fixpoint first_rule (rules : list ((string * string) * list string))
    (etf_name : string) : option (string * string) :=
  match rules with
  | [] => None
  | (sector_theme, keywords) :: rest =>
      if any_keyword_in keywords etf_name then Some sector_theme
      else first_rule rest etf_name
  end.

Definition get_etf_sector_and_theme (etf_name : string) : string * string :=
  if any_keyword_in ["恒生"; "H股"; "港股"; "中概"; "互联网"] etf_name
  then ("港股", "港股")
  else
    match first_rule map_rules etf_name with
    | Some sector_theme => sector_theme
    | None => ("其他", "其他")
    end.

(** ** main.py: [comprehensive_scoring] (lines 1286-1325) *)

(** [np.maximum] and [np.minimum] propagate NaN. *)
Definition np_maximum (x y : pyfloat) : pyfloat :=
  match x, y with
  | Fin a, Fin b => if Qlt_bool a b then Fin b else Fin a
  | _, _ => NaN
  end.
Definition np_minimum (x y : pyfloat) : pyfloat :=
  match x, y with
  | Fin a, Fin b => if Qlt_bool b a then Fin b else Fin a
  | _, _ => NaN
  end.

(** [np.clip(x, lo, hi)] *)
Definition np_clip (x lo hi : pyfloat) : pyfloat :=
  np_minimum (np_maximum x lo) hi.

(** [theme_to_heat] of lines 1295-1297: later rows overwrite earlier ones.
    Only string keys can answer the lookup by sector name. *)
Definition theme_to_heat (heat_map : DataFrame)
  : result (gmap string Scalar) :=
  match df_getcol heat_map "板块名称" with
  | Raise e => Raise e
  | Ok names =>
      match df_getcol heat_map "热力值" with
      | Raise e => Raise e
      | Ok heats =>
          Ok (fold_left
                (fun m '(name, heat) =>
                   match name with
                   | SStr s => <[s := heat]> m
                   | _ => m
                   end)
                (combine names heats) ∅)
      end
  end.

(** The body of the loop of lines 1298-1318. *)
Definition score_etf (lib : Library) (t2h : gmap string Scalar)
    (etf : EtfTech) : result ScoreRow :=
  let score := base_score etf in
  let reason1 :=
    "技术面: " +:+ technical_status etf +:+ " (基础分: "
      +:+ format_1f lib score +:+ ")" in
  let '(specific_sector, broad_theme) :=
    get_etf_sector_and_theme (etf_name etf) in
  let heat_cell := default (SInt 50) (t2h !! specific_sector) in
  match cell_float heat_cell with
  | Raise e => Raise e
  | Ok heat_value =>
      let heat_score := fdiv (fsub heat_value (Fin 50)) (Fin 15) in
      let score := fadd score heat_score in
      let reason2 :=
        "板块热力: " +:+ format_1f lib heat_score +:+ " (热力值: "
          +:+ cell_str lib heat_cell +:+ ")" in
      let final := np_clip score (Fin 0) (Fin 5) in
      let reasons :=
        [reason1; reason2] ++
        (if fge final (Fin 3.5) && flt (change_pct etf) (Fin 0)
         then ["回调但趋势未破，或为低吸机会"] else []) in
      Ok (mkScore (etf_name etf) (etf_code etf) (change_pct etf) final
                  (str_join " | " reasons) broad_theme)
  end.

Fixpoint score_all (lib : Library) (t2h : gmap string Scalar)
    (etfs : list EtfTech) : result (list ScoreRow) :=
  match etfs with
  | [] => Ok []
  | etf :: rest =>
      match score_etf lib t2h etf with
      | Raise e => Raise e
      | Ok row =>
          match score_all lib t2h rest with
          | Raise e => Raise e
          | Ok rows => Ok (row :: rows)
          end
      end
  end.

(** [not self.analysis_result.get("etf_technical")] *)
Definition not_truthy (v : option ResultValue) : result bool :=
  match v with
  | None => Ok true
  | Some (RDict d) => Ok (bool_decide (d = ∅))
  | Some (RFrame _) => Raise ValueError
  | Some (REtfs l) => Ok (bool_decide (l = []))
  | Some (RRanking l) => Ok (bool_decide (l = []))
  | Some (RText s) => Ok (String.eqb s "")
  end.

(** [v.empty] for a stored value: only a frame has the attribute. *)
Definition value_empty (v : ResultValue) : result bool :=
  match v with
  | RFrame df => Ok (df_empty df)
  | _ => Raise AttributeError
  end.

Definition comprehensive_scoring (lib : Library) : Step :=
  fun a =>
    match not_truthy (analysis_result a !! "etf_technical") with
    | Raise e => (Raise e, a)
    | Ok true => (Ok tt, a)
    | Ok false =>
        match value_empty (default (RFrame empty_df)
                             (analysis_result a !! "sector_heat_map")) with
        | Raise e => (Raise e, a)
        | Ok true => (Ok tt, a)
        | Ok false =>
            match analysis_result a !! "sector_heat_map",
                  analysis_result a !! "etf_technical" with
            | Some (RFrame heat_map), Some (REtfs etfs) =>
                match theme_to_heat heat_map with
                | Raise e => (Raise e, a)
                | Ok t2h =>
                    match score_all lib t2h etfs with
                    | Raise e => (Raise e, a)
                    | Ok final_scores =>
                        let order :=
                          argsort_desc (map final_score final_scores) in
                        let df := omap (fun i => final_scores !! i) order in
                        (Ok tt, set_result "final_ranking" (RRanking df) a)
                    end
                end
            | _, _ => (Raise TypeError, a)
            end
        end
    end.

(** ** main.py: [fetch_data] and [run_analysis] (lines 288-487, 1765-1800)

    What the network returned is summarised by the state [fetch_data]
    leaves behind and by its boolean result. *)

Record FetchOutcome : Type := mkFetch {
  fetched_data : gmap string DataFrame;
  fetched_industry_map : IndustryMap;
  fetch_ok : bool
}.

Definition fetch_data (f : FetchOutcome) (a : Analyzer) : bool * Analyzer :=
  (fetch_ok f,
   mkAnalyzer (fetched_data f) (analysis_result a) (fetched_industry_map f)
              (run_mode a) (is_trading_day a)).

(** [datetime.now()]: the date as a day number, the hour, the weekday. *)
Record Now : Type := mkNow { today : Z; hour : Z; weekday : Z }.

Definition pipeline (lib : Library) (b : Bodies) : Step :=
  analyze_market_liquidity b >>>
  analyze_market_turnover b >>>
  analyze_margin_trading b >>>
  analyze_northbound_fund_flow b >>>
  analyze_intermarket_relationship b >>>
  analyze_market_style b >>>
  analyze_limitup_structure b >>>
  analyze_market_sentiment lib >>>
  analyze_sector_strength lib >>>
  analyze_market_stage b >>>
  comprehensive_scoring lib >>>
  analyze_conclusion b >>>
  print_report b.

Definition run_analysis (lib : Library) (b : Bodies) (now : Now)
    (calendar : result DataFrame) (fetch : FetchOutcome) : Step :=
  fun a =>
    let trade_day := _is_trade_day lib calendar (today now) in
    let is_trading :=
      match trade_day with
      | Some verdict => verdict
      | None => weekday now <? 5
      end in
    let mode :=
      if is_trading then
        if (9 <=? hour now) && (hour now <? 12) then LIVE_MORNING
        else if (12 <=? hour now) && (hour now <? 13) then MIDDAY_SUMMARY
        else if (13 <=? hour now) && (hour now <? 15) then LIVE_AFTERNOON
        else POST_MARKET
      else POST_MARKET in
    let a1 :=
      mkAnalyzer (data a) (analysis_result a) (stock_to_industry_map a)
                 (Some mode) (Some is_trading) in
    (* clean_old_cache() removes files of the cache directory only *)
    let '(fetched, a2) := fetch_data fetch a1 in
    if fetched then pipeline lib b a2 else (Ok tt, a2).

(** ** The run-mode rule in the words of the specification *)

(** The dates of the trading calendar, when the calendar is available: it
    was fetched, has rows, and carries a date column. *)
Definition calendar_dates (lib : Library) (calendar : result DataFrame)
  : option (list Z) :=
  match calendar with
  | Raise _ => None
  | Ok df =>
      if df_empty df then None
      else
        match List.find (fun c => bool_decide (c ∈ df_columns df))
                        ["trade_date"; "日期"; "date"] with
        | Some col =>
            match assoc_lookup col (df_series df) with
            | Some cells => Some (omap (to_datetime_coerce lib) cells)
            | None => None
            end
        | None => None
        end
  end.

Definition spec_is_trading_day (lib : Library) (calendar : result DataFrame)
    (now : Now) : bool :=
  match calendar_dates lib calendar with
  | Some dates => bool_decide (today now ∈ dates)
  | None => weekday now <? 5
  end.

Definition spec_run_mode (trading_day : bool) (h : Z) : RunMode :=
  if negb trading_day then POST_MARKET
  else if bool_decide (9 <= h < 12) then LIVE_MORNING
  else if bool_decide (12 <= h < 13) then MIDDAY_SUMMARY
  else if bool_decide (13 <= h < 15) then LIVE_AFTERNOON
  else POST_MARKET.

(** A method that leaves the run mode and the trading-day flag alone. *)
Definition keeps_mode (s : Step) : Prop :=
  forall a, run_mode (s a).2 = run_mode a /\
            is_trading_day (s a).2 = is_trading_day a.

(** ** The columns of the sector heat, by what they hold *)

(** Fund-strength score: percentile rank of the net main-fund inflow times
    100, and the neutral 50 for every sector when the inflow column is
    absent or holds no number at all. *)
Definition spec_fund_strength (lib : Library) (sectors : DataFrame)
  : list pyfloat :=
  match assoc_lookup "主力净流入" (df_series sectors) with
  | Some col =>
      let inflow := map (cell_to_numeric lib) col in
      if forallb isna inflow then repeat (Fin 50) (df_len sectors)
      else map (fun r => fmul r (Fin 100)) (rank_pct inflow)
  | None => repeat (Fin 50) (df_len sectors)
  end.

(** Popularity score: percentile rank of the co-rising count times 100. *)
Definition spec_popularity (lib : Library) (counts : list Scalar)
  : list pyfloat :=
  map (fun r => fmul r (Fin 100)) (rank_pct (numeric_counts lib counts)).

(** Heat: 0.7 x popularity + 0.3 x fund strength, rounded to 2 decimals. *)
Definition spec_heat (popularity fund : pyfloat) : pyfloat :=
  fround2 (fadd (fmul (Fin 0.7) popularity) (fmul (Fin 0.3) fund)).

(** The heat value line 1302 reads for an instrument: the heat cell of its
    keyword-matched sector, or the neutral 50 when the heat map has no
    entry for that sector. *)
Definition heat_cell_of (t2h : gmap string Scalar) (etf : EtfTech) : Scalar :=
  default (SInt 50) (t2h !! (get_etf_sector_and_theme (etf_name etf)).1).

(** The final scores stored in [analysis_result["final_ranking"]]. *)
Definition final_scores_of (a : Analyzer) : option (list pyfloat) :=
  match analysis_result a !! "final_ranking" with
  | Some (RRanking rows) => Some (map final_score rows)
  | _ => None
  end.

(** [0 <= x <= 5] for a float; false for NaN. *)
Definition in_score_range (x : pyfloat) : bool :=
  fle (Fin 0) x && fle x (Fin 5).

(** ** volces_chat.py *)

(** [str.strip()].  A Python [str] is a sequence of code points, and
    [strip] removes from both ends the ones [str.isspace] accepts: U+0009 to
    U+000D, U+001C to U+0020, U+0085, U+00A0, U+1680, U+2000 to U+200A,
    U+2028, U+2029, U+202F, U+205F and U+3000.  On the UTF-8 bytes of the
    string these are the one-, two- and three-byte sequences below; no
    whitespace character takes four bytes. *)
Definition py_isspace (c : ascii) : bool :=
  let n := N_of_ascii c in
  ((9 <=? n) && (n <=? 13) || (28 <=? n) && (n <=? 32))%N.

(** U+0085 is C2 85 and U+00A0 is C2 A0. *)
Definition py_isspace2 (c1 c2 : ascii) : bool :=
  let b := N_of_ascii c2 in
  ((N_of_ascii c1 =? 194) && ((b =? 133) || (b =? 160)))%N.

(** U+1680 is E1 9A 80; U+2000 to U+200A, U+2028, U+2029 and U+202F are
    E2 80 followed by 80-8A, A8, A9 and AF; U+205F is E2 81 9F; U+3000 is
    E3 80 80. *)
Definition py_isspace3 (c1 c2 c3 : ascii) : bool :=
  let a := N_of_ascii c1 in
  let b := N_of_ascii c2 in
  let c := N_of_ascii c3 in
  ((a =? 225) && (b =? 154) && (c =? 128)
   || (a =? 226) && (b =? 128)
      && ((128 <=? c) && (c <=? 138) || (c =? 168) || (c =? 169) || (c =? 175))
   || (a =? 226) && (b =? 129) && (c =? 159)
   || (a =? 227) && (b =? 128) && (c =? 128))%N.

Fixpoint lstrip (s : string) : string :=
  match s with
  | EmptyString => EmptyString
  | String c1 rest1 =>
      if py_isspace c1 then lstrip rest1
      else
        match rest1 with
        | EmptyString => s
        | String c2 rest2 =>
            if py_isspace2 c1 c2 then lstrip rest2
            else
              match rest2 with
              | EmptyString => s
              | String c3 rest3 =>
                  if py_isspace3 c1 c2 c3 then lstrip rest3 else s
              end
        end
  end.

(** The same scan from the other end, on the reversed bytes: the bytes of a
    character arrive last first. *)
Fixpoint lstrip_reversed (s : string) : string :=
  match s with
  | EmptyString => EmptyString
  | String c1 rest1 =>
      if py_isspace c1 then lstrip_reversed rest1
      else
        match rest1 with
        | EmptyString => s
        | String c2 rest2 =>
            if py_isspace2 c2 c1 then lstrip_reversed rest2
            else
              match rest2 with
              | EmptyString => s
              | String c3 rest3 =>
                  if py_isspace3 c3 c2 c1 then lstrip_reversed rest3 else s
              end
        end
  end.

Definition rstrip (s : string) : string :=
  String.rev (lstrip_reversed (String.rev s)).

Definition strip (s : string) : string := rstrip (lstrip s).

(** [str.lower()], as far as line 21 depends on it: "x" and "X" are the only
    code points whose lower case is "x", so only the ASCII letters need to
    be mapped; every byte of another character stays different from "x". *)
Definition lower_char (c : ascii) : ascii :=
  let n := N_of_ascii c in
  if ((65 <=? n) && (n <=? 90))%N then ascii_of_N (n + 32) else c.

Fixpoint lower (s : string) : string :=
  match s with
  | EmptyString => EmptyString
  | String c rest => String (lower_char c) (lower rest)
  end.

Fixpoint all_chars (p : ascii -> bool) (s : string) : bool :=
  match s with
  | EmptyString => true
  | String c rest => p c && all_chars p rest
  end.

(** [set(v) == {"x"}] *)
Definition set_is_x (v : string) : bool :=
  match v with
  | EmptyString => false
  | _ => all_chars (fun c => Ascii.eqb c "x") v
  end.

(** [_is_placeholder] (lines 16-21) *)
Definition _is_placeholder (value : option string) : bool :=
  match value with
  | None => true
  | Some EmptyString => true
  | Some value =>
      let v := strip value in
      set_is_x v || set_is_x (lower v)
  end.

(** [a or b] on optional strings: the first operand when it is a non-empty
    string, otherwise the second. *)
Definition str_or (a : option string) (b : string) : string :=
  match a with
  | Some (String c rest) => String c rest
  | _ => b
  end.

Definition nl : string := String (ascii_of_nat 10) EmptyString.

Definition NOT_CONFIGURED : string :=
  "AI调用未配置：未检测到有效的火山方舟鉴权信息。" +:+ nl +:+
  "请设置环境变量：" +:+ nl +:+
  "- VOLCES_API_KEY：你的火山方舟 API Key（Bearer token）" +:+ nl +:+
  "- VOLCES_MODEL：你的模型名称（用于 /chat/completions）" +:+ nl +:+
  "- VOLCES_ENDPOINT：可选；模型直连建议用 https://ark.cn-beijing.volces.com/api/v3/chat/completions" +:+ nl +:+
  "- VOLCES_BOT_ID：可选；若使用 bots 接口通常需要提供 bot_id" +:+ nl +:+
  "配置完成后重新运行即可生成该段AI内容。".

(** What [resp.json()] does: decode, or raise.  Depending on the version of
    the HTTP library the decoding error is a [RequestException] or a plain
    [ValueError]. *)
Inductive JsonOutcome : Type :=
  | JsonOk (v : PyObj)
  | JsonRequestError (msg : string)
  | JsonValueError (msg : string).

Record Response : Type := mkResponse {
  status_code : Z;
  json_of : JsonOutcome;
  text : option string
}.

(** The exceptions of the [try] block, by the handler that takes them. *)
Inductive ChatExn : Type :=
  | RequestException (msg : string) (response : option Response)
  | ParseError (msg : string)      (* KeyError, ValueError, JSONDecodeError *)
  | OtherError (msg : string).

Inductive ChatResult (A : Type) : Type :=
  | Returns (a : A)
  | Throws (e : ChatExn).
Arguments Returns {A} a.
Arguments Throws {A} e.

(** [requests.post(...)] *)
Inductive PostOutcome : Type :=
  | PostResponse (resp : Response)
  | PostRaises (e : ChatExn).

Record Request : Type := mkRequest {
  req_url : string;
  req_authorization : string;
  req_payload : PyObj;
  req_timeout : Z
}.

(** [obj[key]] for a string key *)
Definition subscript_key (obj : PyObj) (key : string) : ChatResult PyObj :=
  match obj with
  | VDict d =>
      match assoc_lookup key d with
      | Some v => Returns v
      | None => Throws (ParseError ("'" +:+ key +:+ "'"))
      end
  | _ => Throws (OtherError "object is not subscriptable by a string")
  end.

(** [obj[0]] *)
Definition subscript_0 (obj : PyObj) : ChatResult PyObj :=
  match obj with
  | VList (v :: _) => Returns v
  | VList [] => Throws (OtherError "list index out of range")
  | VStr (String c _) => Returns (VStr (String c EmptyString))
  | VStr EmptyString => Throws (OtherError "string index out of range")
  | VDict _ => Throws (ParseError "0")
  | _ => Throws (OtherError "object is not subscriptable")
  end.

(** [data["choices"][0]["message"]["content"]] (line 115) *)
Definition extract_content (data : PyObj) : ChatResult PyObj :=
  match subscript_key data "choices" with
  | Throws e => Throws e
  | Returns choices =>
      match subscript_0 choices with
      | Throws e => Throws e
      | Returns choice =>
          match subscript_key choice "message" with
          | Throws e => Throws e
          | Returns message => subscript_key message "content"
          end
      end
  end.

Section ChatVolces.
(** The module constants [VOLCES_API_KEY] and [MODEL] (lines 9 and 13);
    [ENDPOINT] only serves as the default of the [endpoint] argument. *)
Variable VOLCES_API_KEY : string.
Variable MODEL : string.
(** [str(obj)] of a decoded body, for the messages. *)
Variable py_str : PyObj -> string.
(** The message of the [HTTPError] that [raise_for_status] raises. *)
Variable http_error_msg : Response -> string.

(** [detail] of lines 100-104 and 132-136 *)
Definition response_detail (resp : Response) : string :=
  match json_of resp with
  | JsonOk v => py_str v
  | _ => strip (default "" (text resp))
  end.

Definition BAD_REQUEST_HINT : string :=
  "排查建议：" +:+ nl +:+
  "- 若你传的是模型名（如 deepseek-xxx），请把 VOLCES_ENDPOINT 设为 `https://ark.cn-beijing.volces.com/api/v3/chat/completions`" +:+ nl +:+
  "- 若你坚持用 bots 接口，请设置 VOLCES_BOT_ID 为你的 bot_id，并保持 endpoint 为 `/api/v3/bots/chat/completions`".

(** The [try] block of lines 81-116, after [requests.post] has answered. *)
Definition handle_response (resp : Response) : ChatResult PyObj :=
  if status_code resp =? 401 then
    Returns (VStr ("AI调用失败：鉴权失败(401 Unauthorized)。" +:+ nl +:+
      "请检查 VOLCES_API_KEY 是否正确、是否有权限访问该 bot/model，或 key 是否已过期。"))
  else if status_code resp =? 403 then
    Returns (VStr ("AI调用失败：无权限(403 Forbidden)。" +:+ nl +:+
      "请确认账号权限、bot/model 权限，以及 key 是否绑定了正确的项目/空间。"))
  else if status_code resp =? 400 then
    Returns (VStr ("AI调用失败：请求参数错误(400 Bad Request)。" +:+ nl +:+
      "服务端返回：" +:+ response_detail resp +:+ nl +:+ BAD_REQUEST_HINT))
  else if (400 <=? status_code resp) && (status_code resp <? 600) then
    Throws (RequestException (http_error_msg resp) (Some resp))
  else
    match json_of resp with
    | JsonRequestError msg => Throws (RequestException msg None)
    | JsonValueError msg => Throws (ParseError msg)
    | JsonOk data => extract_content data
    end.

(** The [except] clauses of lines 129-142. *)
Definition handle_exception (e : ChatExn) : PyObj :=
  match e with
  | RequestException msg (Some resp) =>
      VStr ("AI调用失败：网络或请求异常：" +:+ msg +:+ " | 详情："
              +:+ response_detail resp)
  | RequestException msg None => VStr ("AI调用失败：网络或请求异常：" +:+ msg)
  | ParseError msg => VStr ("AI调用失败：返回解析异常：" +:+ msg)
  | OtherError msg => VStr ("AI调用失败：未知异常：" +:+ msg)
  end.

Definition message (role content : string) : PyObj :=
  VDict [("role", VStr role); ("content", VStr content)].

(** The request of lines 55-79 and 88. *)
Definition build_request (system user : string) (timeout : Z)
    (resolved_key resolved_model resolved_endpoint resolved_bot_id : string)
  : Request :=
  let is_bots_endpoint := str_contains "/bots/" resolved_endpoint in
  let messages := VList [message "system" system; message "user" user] in
  let payload :=
    if is_bots_endpoint && negb (String.eqb resolved_bot_id "") then
      VDict [("bot_id", VStr resolved_bot_id); ("stream", VBool false);
             ("messages", messages)]
    else
      VDict [("model", VStr resolved_model); ("stream", VBool false);
             ("messages", messages)] in
  mkRequest resolved_endpoint ("Bearer " +:+ resolved_key) payload timeout.

Definition resolved_key_of (api_key : option string)
    (env : gmap string string) : string :=
  str_or api_key (str_or (env !! "VOLCES_API_KEY") VOLCES_API_KEY).

Definition resolved_model_of (model : option string)
    (env : gmap string string) : string :=
  str_or model (str_or (env !! "VOLCES_MODEL") MODEL).

(** [chat_volces] (lines 24-142).  [env] is the process environment and
    [post] the HTTP transport. *)
Definition chat_volces (env : gmap string string)
    (post : Request -> PostOutcome)
    (system user : string) (timeout : Z)
    (api_key model : option string) (endpoint : string)
  : ChatResult PyObj :=
  let resolved_key := resolved_key_of api_key env in
  let resolved_model := resolved_model_of model env in
  let resolved_endpoint := strip (str_or (env !! "VOLCES_ENDPOINT") endpoint) in
  let resolved_bot_id := strip (str_or (env !! "VOLCES_BOT_ID") "") in
  if _is_placeholder (Some resolved_key) || _is_placeholder (Some resolved_model)
  then Returns (VStr NOT_CONFIGURED)
  else
    let request :=
      build_request system user timeout resolved_key resolved_model
                    resolved_endpoint resolved_bot_id in
    let attempt :=
      match post request with
      | PostRaises e => Throws e
      | PostResponse resp => handle_response resp
      end in
    match attempt with
    | Returns content_str => Returns content_str
    | Throws e => Returns (handle_exception e)
    end.
End ChatVolces.

(** A string made of the letters x and X only, at least one. *)
Definition only_x (v : string) : bool :=
  match v with
  | EmptyString => false
  | _ => all_chars (fun c => Ascii.eqb c "x" || Ascii.eqb c "X") v
  end.

(** [isinstance(v, str)] *)
Definition is_str (v : PyObj) : bool :=
  match v with
  | VStr _ => true
  | _ => false
  end.

(** [s.startswith("AI调用失败")] for a returned object that is a string. *)
Definition is_failure_text (v : PyObj) : bool :=
  match v with
  | VStr s => String.prefix "AI调用失败" s
  | _ => false
  end.

(** ** main.py: [clean_old_cache] (lines 181-204)

    The cache directory is the part of the file store whose paths are
    ["../cache/" + name] with a name free of path separators; [os.listdir]
    yields those names. *)

Definition is_digit (c : ascii) : bool :=
  let n := N_of_ascii c in ((48 <=? n) && (n <=? 57))%N.

(** The reversed characters of a name, without the final newline that [$]
    tolerates. *)
Definition rev_before_end (chars : list ascii) : list ascii :=
  match rev chars with
  | c :: r => if Ascii.eqb c "010" then r else c :: r
  | [] => []
  end.

(** [re.search(r"_(\d{n})\.pkl$", filename)]: the digits of group 1 when
    the pattern matches. *)
Definition label_match (n : nat) (filename : string) : option string :=
  match rev_before_end (list_ascii_of_string filename) with
  | "l" :: "k" :: "p" :: "." :: rest =>
      let digits := take n rest in
      if (length digits =? n)%nat && forallb is_digit digits then
        match drop n rest with
        | c :: _ =>
            if Ascii.eqb c "_" then Some (string_of_list_ascii (rev digits))
            else None
        | [] => None
        end
      else None
  | _ => None
  end%char.

(** Whether the sweep removes a file of the cache directory. *)
Definition swept (clock : Clock) (filename : string) : bool :=
  if str_contains "_base.pkl" filename then false
  else
    let stale_daily :=
      match label_match 8 filename with
      | Some label => negb (String.eqb label (day_label clock))
      | None => false
      end in
    match label_match 10 filename with
    | Some label =>
        if negb (String.eqb label (hour_label clock)) then true
        else stale_daily
    | None => stale_daily
    end.

(** The name of a path directly under ["../cache"]. *)
Definition cache_dir_entry (path : string) : option string :=
  if String.prefix "../cache/" path then
    let name := substring 9 (String.length path - 9) path in
    if str_contains "/" name then None else Some name
  else None.

(** Whether a path of the file store survives the sweep. *)
Definition survives (clock : Clock) (path : string) : bool :=
  match cache_dir_entry path with
  | Some name => negb (swept clock name)
  | None => true
  end.

Definition clean_old_cache {V : Type} (clock : Clock) (store : gmap string V)
  : gmap string V :=
  filter (fun entry => survives clock entry.1 = true) store.

(** Labels as [strftime] writes them: ten digits for the hour, eight for
    the day. *)
Definition digits_of_length (n : nat) (label : string) : Prop :=
  String.length label = n /\
  forallb is_digit (list_ascii_of_string label) = true.

Definition clock_labels_ok (clock : Clock) : Prop :=
  digits_of_length 10 (hour_label clock) /\
  digits_of_length 8 (day_label clock).

(** The name under which [cache_data] stores a result (line 107). *)
Definition cache_filename (filename : string) (args : list string)
    (kwargs : list (string * string)) (time_str : string) : string :=
  filename +:+ "_" +:+ params_str args kwargs +:+ "_" +:+ time_str +:+ ".pkl".

(** ** main.py: [_get_elapsed_trading_minutes] (lines 489-504)

    The time of day is given in seconds since midnight. *)

Definition _get_elapsed_trading_minutes (a : Analyzer) (now_s : Q) : Q :=
  match is_trading_day a with
  | Some false => 0
  | _ =>
      if Qlt_bool now_s 34200 then 0                       (* before 09:30 *)
      else if Qle_bool now_s 41400                         (* up to 11:30 *)
        then (now_s - 34200) / 60
      else if Qlt_bool now_s 46800 then 120                (* before 13:00 *)
      else if Qle_bool now_s 54000                         (* up to 15:00 *)
        then 120 + (now_s - 46800) / 60
      else 240
  end%Q.

(** ** main.py: the streak of the northbound flow (lines 793-804) *)

Fixpoint streak_loop (vals : list pyfloat) (streak : Z) : Z :=
  match vals with
  | [] => streak
  | val :: rest =>
      if fge val (Fin 0) then
        if streak >=? 0 then streak_loop rest (streak + 1) else streak
      else
        if streak <=? 0 then streak_loop rest (streak - 1) else streak
  end.

(** [for val in reversed(total_series.tolist())] *)
Definition flow_streak (total_series : list pyfloat) : Z :=
  streak_loop (rev total_series) 0.

(** The value before a run of the series, if there is one, has the other
    sign. *)
Definition preceded_by (nonneg : bool) (pre : list pyfloat) : Prop :=
  match last pre with
  | Some v => fge v (Fin 0) = nonneg
  | None => True
  end.

(** A heat cell that is a number between 0 and 100, or NaN. *)
Definition heat_cell_ok (c : Scalar) : Prop :=
  c = SFloat NaN \/ exists h, c = SFloat (Fin h) /\ (0 <= h <= 100)%Q.

(** A score that is a number in the half-open interval (0, 100], or NaN. *)
Definition score_ok (x : pyfloat) : Prop :=
  x = NaN \/ exists q, x = Fin q /\ (0 < q <= 100)%Q.

(** ** Concrete inputs used by the examples *)

Definition ten_rows : DataFrame :=
  mkDF [("日期", map (fun n => SInt (Z.of_nat n)) (seq 1 10));
        ("净流入", map (fun n => SFloat (Fin (inject_Z (Z.of_nat n)))) (seq 1 10))].

(** Provider table of the resolver scenario: A raises, B returns an empty
    frame, C returns a ten-row frame, N returns [None]. *)
Definition scenario_ak : gmap string (@AkFunc unit) :=
  <["A" := fun _ => Raise NetworkError]>
  (<["B" := fun _ => Ok (Some empty_df)]>
  (<["C" := fun _ => Ok (Some ten_rows)]>
  (<["N" := fun _ => Ok None]> ∅))).

(** A small decimal reader standing for [float] on strings of digits. *)
Definition digit_of (c : ascii) : option Z :=
  let n := Z.of_N (N_of_ascii c) in
  if (48 <=? n) && (n <=? 57) then Some (n - 48) else None.

Fixpoint read_digits (acc : Z) (s : string) : option Z :=
  match s with
  | EmptyString => Some acc
  | String c rest =>
      match digit_of c with
      | Some d => read_digits (10 * acc + d) rest
      | None => None
      end
  end.

Definition demo_float_of_str (s : string) : option pyfloat :=
  match s with
  | EmptyString => None
  | String "-" rest =>
      match rest with
      | EmptyString => None
      | _ => option_map (fun n => Fin (inject_Z (- n))) (read_digits 0 rest)
      end
  | _ => option_map (fun n => Fin (inject_Z n)) (read_digits 0 s)
  end.

Definition demo_to_numeric (s : string) : pyfloat :=
  match demo_float_of_str s with Some x => x | None => NaN end.

Definition demo_clock : Clock := mkClock "2024010209" "20240102".

Definition fresh_world : CacheWorld := mkWorld ∅ ∅ 0.

(** A producer that fails on its first invocation and answers afterwards. *)
Definition flaky_producer (n : nat) : result DataFrame :=
  match n with
  | O => Raise NetworkError
  | S _ => Ok ten_rows
  end.

Definition demo_path : string :=
  cache_filepath "zt_pool" [] [] (bucket_label demo_clock "hourly").

(** A three-day history, keyed by day number, and a delta that rewrites the
    last day and adds one. *)
Definition demo_base : list (Z * string) :=
  [(19723, "a"); (19724, "b"); (19725, "c")].
Definition demo_delta : list (Z * string) :=
  [(19725, "c2"); (19726, "d")].
Definition demo_disk : gmap string (list (Z * string)) :=
  <[base_filepath "sh_index" := demo_base]> ∅.

Definition demo_to_datetime (c : Scalar) : option Z :=
  match c with SInt n => Some n | _ => None end.

Definition demo_float_repr (x : pyfloat) : string :=
  match x with NaN => "nan" | Fin q => pretty (Qfloor q) end.

Definition demo_lib : Library :=
  mkLibrary demo_to_numeric demo_to_datetime demo_float_repr demo_float_repr
            demo_float_repr.

(** Analyzer bodies: the turnover body raises, the limit-up body reports
    its counts, the others succeed with an empty payload. *)
Definition demo_limitup : gmap string PyObj :=
  <["limit_up_count" := VInt 85]>
  (<["limit_down_count" := VInt 3]>
  (<["break_limit_count" := VInt 20]> ∅)).

Definition demo_bodies : Bodies :=
  mkBodies (fun _ => Ok ∅) (fun _ => Raise KeyError) (fun _ => Ok ∅)
           (fun _ => Ok ∅) (fun _ => Ok ∅) (fun _ => Ok ∅)
           (fun _ => Ok demo_limitup) (fun _ => Ok ∅)
           true (fun _ => Ok "ok") (fun _ => Ok tt).

(** A trading calendar holding the day numbers 19723..19727. *)
Definition demo_calendar : DataFrame :=
  mkDF [("trade_date", map SInt [19723; 19724; 19725; 19726; 19727])].

Definition two_sector_flow : DataFrame :=
  mkDF [("名称", [SStr "证券"; SStr "银行"]);
        ("今日主力净流入-净额", [SFloat (Fin 120); SFloat (Fin (-30))])].

Definition ljqs_two : DataFrame :=
  mkDF [("股票代码", [SInt 600030; SInt 1])].

(** What [fetch_data] leaves behind when the industry listing could not be
    fetched: [cache_data] answered with an empty frame, which became
    [stock_to_industry_map]; the other feeds answered. *)
Definition fetch_without_industry_map : FetchOutcome :=
  mkFetch (<["industry_fund_flow" := two_sector_flow]>
           (<["rank_ljqs" := ljqs_two]> ∅))
          (IndustryFrame empty_df) true.

Definition ten_oclock : Now := mkNow 19725 10 2.

(** Three sectors with their co-rising counts and inflows; one inflow is
    the placeholder "-". *)
Definition three_sectors : DataFrame :=
  mkDF [("板块名称", [SStr "证券"; SStr "银行"; SStr "煤炭行业"]);
        ("主力净流入", [SStr "-"; SFloat (Fin 120); SFloat (Fin (-30))]);
        ("量价齐升家数", [SInt 4; SInt 0; SInt 4])].

(** A flow table in which one sector reports the placeholder "-" as its
    inflow, and one analysed ETF of that sector. *)
Definition flow_with_placeholder : DataFrame :=
  mkDF [("名称", [SStr "证券"; SStr "银行"; SStr "煤炭行业"]);
        ("今日主力净流入-净额", [SStr "-"; SFloat (Fin 120); SFloat (Fin (-30))])].

Definition broker_etf : EtfTech :=
  mkEtf "证券ETF" "512880" "上涨趋势中的回调" (Fin 3) (Fin (-0.5)).

Definition bank_etf : EtfTech :=
  mkEtf "银行ETF" "512800" "强势加速上涨" (Fin 2.5) (Fin 0.4).

Definition scoring_input : Analyzer :=
  mkAnalyzer (<["industry_fund_flow" := flow_with_placeholder]> ∅)
             (<["etf_technical" := REtfs [broker_etf; bank_etf]]> ∅)
             (IndustryDict ∅) (Some POST_MARKET) (Some true).

Definition demo_default_key : string := "0000-default-key".
Definition demo_default_model : string := "deepseek-v3-2-251201".
Definition demo_endpoint : string :=
  "https://ark.cn-beijing.volces.com/api/v3/chat/completions".

Definition demo_py_str (v : PyObj) : string :=
  match v with VStr s => s | _ => "{...}" end.

Definition demo_http_msg (resp : Response) : string :=
  pretty (status_code resp) +:+ " Server Error".

(** A transport that answers 200 with a well-formed completion. *)
Definition good_body : PyObj :=
  VDict [("choices",
          VList [VDict [("message",
                         VDict [("role", VStr "assistant");
                                ("content", VStr "report")])]])].

Definition post_ok (_ : Request) : PostOutcome :=
  PostResponse (mkResponse 200 (JsonOk good_body) (Some "")).

(** A transport that answers 200 with a completion whose content is the
    JSON value null. *)
Definition null_body : PyObj :=
  VDict [("choices",
          VList [VDict [("message",
                         VDict [("role", VStr "assistant");
                                ("content", VNone)])]])].

Definition post_null_content (_ : Request) : PostOutcome :=
  PostResponse (mkResponse 200 (JsonOk null_body) (Some "")).

(** The key U+00A0 "xxx" U+3000: a no-break space, three letters and an
    ideographic space. *)
Definition padded_key : string :=
  String (ascii_of_nat 194) (String (ascii_of_nat 160) "xxx")
    +:+ String (ascii_of_nat 227)
          (String (ascii_of_nat 128) (String (ascii_of_nat 128) "")).

(** A transport that answers 502 with an HTML page. *)
Definition post_bad_gateway (_ : Request) : PostOutcome :=
  PostResponse (mkResponse 502 (JsonValueError "Expecting value")
                           (Some " <html>Bad Gateway</html> ")).

(** A state in which the sentiment analyzer has all it reads. *)
Definition sentiment_input : Analyzer :=
  mkAnalyzer
    (<["market_activity" :=
         mkDF [("item", [SStr "上涨"; SStr "下跌"; SStr "平盘"]);
               ("value", [SInt 3000; SInt 1500; SInt 200])]]>
     (<["congestion" := mkDF [("congestion", [SFloat (Fin 0.5); SFloat (Fin 0.95)])]]>
      ∅))
    (<["limitup" := RDict demo_limitup]> ∅)
    (IndustryDict ∅) (Some POST_MARKET) (Some true).

(* ===================================================================== *)
(** * Part II. Theorems                                                   *)
(* ===================================================================== *)

(** ** The fallback feed resolver *)

Section SafeAkCallFacts.
Context {Args : Type}.
Implicit Types (ak : gmap string (@AkFunc Args)) (args : Args).

Lemma safe_ak_call_unusable ak args name rest :
  usable ak args name = None ->
  _safe_ak_call ak (name :: rest) args =
    ((if registered ak name then [name] else []) ++ (_safe_ak_call ak rest args).1,
     (_safe_ak_call ak rest args).2).
Proof.
  unfold usable, registered. simpl.
  destruct (ak !! name) as [func|]; [|by destruct (_safe_ak_call ak rest args)].
  destruct (_safe_ak_call ak rest args) as [calls r]. simpl.
  destruct (func args) as [[df|]|e]; try done.
  by destruct (df_empty df).
Qed.

Lemma safe_ak_call_usable ak args name rest df :
  usable ak args name = Some df ->
  _safe_ak_call ak (name :: rest) args = ([name], Ok df).
Proof.
  unfold usable. simpl.
  destruct (ak !! name) as [func|]; [|done].
  destruct (func args) as [[df'|]|e]; try done.
  destruct (df_empty df'); [done|]. by intros [= ->].
Qed.

Lemma safe_ak_call_all_unusable ak args names :
  Forall (fun n => usable ak args n = None) names ->
  _safe_ak_call ak names args = (filter (fun n => registered ak n) names, Ok empty_df).
Proof.
  induction 1 as [|name rest Hname _ IH]; [done|].
  rewrite safe_ak_call_unusable by done. rewrite IH. cbn [fst snd].
  rewrite filter_cons. case_decide; destruct (registered ak name); done.
Qed.

Lemma safe_ak_call_prefix ak args pre name post df :
  Forall (fun n => usable ak args n = None) pre ->
  usable ak args name = Some df ->
  _safe_ak_call ak (pre ++ name :: post) args =
    (filter (fun n => registered ak n) pre ++ [name], Ok df).
Proof.
  intros Hpre Hname. induction Hpre as [|p pre Hp _ IH]; simpl app.
  - by rewrite (safe_ak_call_usable _ _ _ _ df).
  - rewrite safe_ak_call_unusable by done. rewrite IH. cbn [fst snd].
    rewrite filter_cons. case_decide; destruct (registered ak p); done.
Qed.

(** C3. The resolver walks the candidates in order.  It returns the frame of
    the first candidate that is registered, does not raise and returns a
    non-empty frame, having invoked exactly the registered candidates up to
    and including that one; when no candidate is usable it returns the empty
    frame after invoking every registered candidate; it never raises. *)
Theorem safe_ak_call_first_usable ak args names :
  (forall pre name post df,
      names = pre ++ name :: post ->
      Forall (fun n => usable ak args n = None) pre ->
      usable ak args name = Some df ->
      _safe_ak_call ak names args =
        (filter (fun n => registered ak n) pre ++ [name], Ok df)) /\
  (Forall (fun n => usable ak args n = None) names ->
      _safe_ak_call ak names args =
        (filter (fun n => registered ak n) names, Ok empty_df)) /\
  (exists df, (_safe_ak_call ak names args).2 = Ok df).
Proof.
  split; [|split].
  - intros pre name post df -> Hpre Hname. by apply safe_ak_call_prefix.
  - apply safe_ak_call_all_unusable.
  - induction names as [|name rest [df IH]]; [by exists empty_df|].
    destruct (usable ak args name) as [df'|] eqn:Hu.
    + exists df'. by rewrite (safe_ak_call_usable _ _ _ _ df').
    + exists df. by rewrite safe_ak_call_unusable.
Qed.
End SafeAkCallFacts.

(** The scenario of the specification: A raises, B is empty, C answers. *)
Lemma safe_ak_call_first_usable_witness :
  _safe_ak_call scenario_ak ["A"; "missing"; "B"; "C"; "N"] tt =
    (["A"; "B"; "C"], Ok ten_rows) /\
  _safe_ak_call scenario_ak ["A"; "B"; "N"] tt = (["A"; "B"; "N"], Ok empty_df).
Proof.
  split.
  - apply (proj1 (safe_ak_call_first_usable scenario_ak tt
                    ["A"; "missing"; "B"; "C"; "N"])
             ["A"; "missing"; "B"] "C" ["N"] ten_rows).
    + reflexivity.
    + repeat constructor.
    + reflexivity.
  - apply (proj1 (proj2 (safe_ak_call_first_usable scenario_ak tt
                           ["A"; "B"; "N"]))).
    repeat constructor.
Defined.

(** ** The flow normalizer *)

Lemma flt_Fin_true a b : flt (Fin a) (Fin b) = true <-> (a < b)%Q.
Proof.
  unfold flt, Qlt_bool. rewrite negb_true_iff.
  split.
  - intros H. apply Qnot_le_lt. intros Hle.
    apply Qle_bool_iff in Hle. congruence.
  - intros H. destruct (Qle_bool b a) eqn:E; [|done].
    apply Qle_bool_iff in E. exfalso. by apply (Qlt_not_le a b).
Qed.

Lemma flt_Fin_false a b : flt (Fin a) (Fin b) = false <-> (b <= a)%Q.
Proof.
  unfold flt, Qlt_bool. rewrite negb_false_iff. apply Qle_bool_iff.
Qed.

Lemma normalize_flow_value_parsed fs tn v :
  float_overflows v = false ->
  _normalize_flow_value fs tn v =
    Ok (match parsed_value fs tn v with
        | NaN => NaN
        | Fin q => if fgt (Fin (Qabs q)) (Fin 1e6) then Fin (q / 1e8) else Fin q
        end).
Proof.
  assert (Hval : forall val : pyfloat,
    (if isna val then Ok NaN
     else if fgt (fabs val) (Fin 1e6) then Ok (fdiv val (Fin 1e8)) else Ok val)
    = Ok (match val with
          | NaN => NaN
          | Fin q => if fgt (Fin (Qabs q)) (Fin 1e6) then Fin (q / 1e8) else Fin q
          end)).
  { intros [|q]; [done|]. cbn [isna fabs fdiv fbin].
    by destruct (fgt (Fin (Qabs q)) (Fin 1e6)). }
  destruct v as [|n|x|s]; cbn [float_overflows]; intros Hrange;
    [done| |exact (Hval x)|].
  - unfold _normalize_flow_value, parsed_value, py_float. rewrite Hrange.
    exact (Hval (Fin (inject_Z n))).
  - unfold _normalize_flow_value, parsed_value, py_float, pd_to_numeric.
    destruct (fs s) as [x|]; [exact (Hval x)|exact (Hval (tn s))].
Qed.

Lemma normalize_flow_value_overflow fs tn v :
  float_overflows v = true ->
  _normalize_flow_value fs tn v = Raise OverflowError.
Proof.
  destruct v as [|n|x|s]; cbn [float_overflows]; try discriminate.
  intros Hbig. unfold _normalize_flow_value, py_float. by rewrite Hbig.
Qed.

(** C9, as the code has it.  For a scalar raw flow value other than an
    integer beyond the range of a float: a value that parses to a finite
    number of magnitude above 1e6 is divided by 1e8; one of magnitude at
    most 1e6 is returned as it is; [None], NaN and unparseable values give
    NaN; and the normalizer does not raise.  For an integer beyond the range
    of a float, [float] raises [OverflowError], which the handler of
    [TypeError] and [ValueError] lets through: the normalizer raises. *)
Theorem normalize_flow_value_cases fs tn (v : Scalar) :
  (float_overflows v = false ->
     (forall q, parsed_value fs tn v = Fin q -> (1e6 < Qabs q)%Q ->
        _normalize_flow_value fs tn v = Ok (Fin (q / 1e8))) /\
     (forall q, parsed_value fs tn v = Fin q -> (Qabs q <= 1e6)%Q ->
        _normalize_flow_value fs tn v = Ok (Fin q)) /\
     (parsed_value fs tn v = NaN -> _normalize_flow_value fs tn v = Ok NaN) /\
     (exists x, _normalize_flow_value fs tn v = Ok x)) /\
  (float_overflows v = true ->
     _normalize_flow_value fs tn v = Raise OverflowError).
Proof.
  split; [|apply normalize_flow_value_overflow].
  intros Hrange. rewrite (normalize_flow_value_parsed _ _ _ Hrange).
  repeat split.
  - intros q -> Hq. unfold fgt.
    by rewrite (proj2 (flt_Fin_true _ _) Hq).
  - intros q -> Hq. unfold fgt.
    by rewrite (proj2 (flt_Fin_false _ _) Hq).
  - by intros ->.
  - eauto.
Qed.

Lemma normalize_flow_value_cases_witness :
  _normalize_flow_value demo_float_of_str demo_to_numeric (SFloat (Fin 250000000))
    = Ok (Fin (250000000 / 1e8)) /\
  _normalize_flow_value demo_float_of_str demo_to_numeric (SStr "-1000000")
    = Ok (Fin (-1000000)) /\
  _normalize_flow_value demo_float_of_str demo_to_numeric (SStr "n/a") = Ok NaN /\
  _normalize_flow_value demo_float_of_str demo_to_numeric (SInt 350000000)
    = Ok (Fin (350000000 / 1e8)) /\
  _normalize_flow_value demo_float_of_str demo_to_numeric (SInt (2 ^ 1024))
    = Raise OverflowError.
Proof.
  split; [|split; [|split; [|split]]].
  - apply (proj1 (proj1 (normalize_flow_value_cases demo_float_of_str
             demo_to_numeric (SFloat (Fin 250000000))) eq_refl));
      [reflexivity|].
    vm_compute. reflexivity.
  - apply (proj1 (proj2 (proj1 (normalize_flow_value_cases demo_float_of_str
             demo_to_numeric (SStr "-1000000")) eq_refl)));
      [reflexivity|].
    vm_compute. discriminate.
  - apply (proj1 (proj2 (proj2 (proj1 (normalize_flow_value_cases
             demo_float_of_str demo_to_numeric (SStr "n/a")) eq_refl)))).
    reflexivity.
  - apply (proj1 (proj1 (normalize_flow_value_cases demo_float_of_str
             demo_to_numeric (SInt 350000000)) eq_refl));
      [reflexivity|].
    vm_compute. reflexivity.
  - apply (proj2 (normalize_flow_value_cases demo_float_of_str demo_to_numeric
             (SInt (2 ^ 1024)))).
    vm_compute. reflexivity.
Defined.

(** C9 as stated fails: the integer 10^400 is a raw value on which the
    normalizer raises. *)
Lemma normalize_flow_value_huge_int_raises :
  _normalize_flow_value demo_float_of_str demo_to_numeric (SInt (10 ^ 400))
    = Raise OverflowError /\
  forall x, _normalize_flow_value demo_float_of_str demo_to_numeric
              (SInt (10 ^ 400)) <> Ok x.
Proof. split; [|intros x]; vm_compute; [reflexivity|discriminate]. Qed.

(** ** The bucketed cache *)

(** C2, as the code has it.  On a miss whose producer raises, [cache_data]
    returns the empty frame without raising, and neither the in-process
    dictionary nor the cache directory receives an entry; the next call for
    the same bucket therefore invokes the producer again. *)
Theorem cache_data_producer_failure clock filename data_func args kwargs
    frequency w e :
  let filepath :=
    cache_filepath filename args kwargs (bucket_label clock frequency) in
  memo w !! filepath = None ->
  files w !! filepath = None ->
  data_func (producer_calls w) = Raise e ->
  let w' := mkWorld (memo w) (files w) (S (producer_calls w)) in
  cache_data clock filename data_func args kwargs frequency w
    = (Ok empty_df, w') /\
  cache_data clock filename data_func args kwargs frequency w'
    = match data_func (S (producer_calls w)) with
      | Ok data =>
          (Ok data, mkWorld (<[filepath := data]> (memo w))
                            (<[filepath := data]> (files w))
                            (S (S (producer_calls w))))
      | Raise _ =>
          (Ok empty_df, mkWorld (memo w) (files w) (S (S (producer_calls w))))
      end.
Proof.
  intros filepath Hmemo Hfiles Hraise w'. unfold cache_data.
  fold filepath. subst w'. cbn [memo files producer_calls].
  rewrite Hmemo, Hfiles, Hraise. split; [done|].
  by destruct (data_func (S (producer_calls w))).
Qed.

Lemma cache_data_producer_failure_witness :
  cache_data demo_clock "zt_pool" flaky_producer [] [] "hourly" fresh_world
    = (Ok empty_df, mkWorld ∅ ∅ 1) /\
  cache_data demo_clock "zt_pool" flaky_producer [] [] "hourly" (mkWorld ∅ ∅ 1)
    = (Ok ten_rows, mkWorld (<[demo_path := ten_rows]> ∅)
                            (<[demo_path := ten_rows]> ∅) 2).
Proof.
  apply (cache_data_producer_failure demo_clock "zt_pool" flaky_producer [] []
           "hourly" fresh_world NetworkError); reflexivity.
Defined.

(** C2 as stated fails: after a failed producer call nothing is stored under
    the bucket's key, and a second call within the same bucket obtains the
    producer's fresh answer instead of a cached empty frame. *)
Lemma cache_data_failure_not_cached :
  let '(r1, w1) :=
    cache_data demo_clock "zt_pool" flaky_producer [] [] "hourly" fresh_world in
  let '(r2, w2) :=
    cache_data demo_clock "zt_pool" flaky_producer [] [] "hourly" w1 in
  r1 = Ok empty_df /\
  memo w1 !! demo_path = None /\
  files w1 !! demo_path = None /\
  r2 = Ok ten_rows /\ r2 <> Ok empty_df /\
  producer_calls w2 = 2%nat.
Proof. vm_compute. repeat split; discriminate. Qed.

(** ** The incremental history *)

Section IncrementalHistoryFacts.
Context {Row : Type}.
Variable date_of : Row -> Z.
Implicit Types (t base delta : list Row) (r : Row) (k : Z).

Local Abbreviation has_date := (has_date date_of).

Lemma has_date_app k t1 t2 :
  has_date k (t1 ++ t2) = has_date k t1 || has_date k t2.
Proof. apply existsb_app. Qed.

Lemma has_date_drop_duplicates k t :
  has_date k (drop_duplicates_last date_of t) = has_date k t.
Proof.
  induction t as [|x t IH]; [done|]. simpl.
  fold (has_date (date_of x) t).
  destruct (has_date (date_of x) t) eqn:Hx.
  - rewrite IH. destruct (Z.eqb_spec (date_of x) k) as [<-|]; [|done].
    by rewrite Hx.
  - simpl. by rewrite IH.
Qed.

Lemma drop_duplicates_last_fixed t :
  drop_duplicates_last date_of (drop_duplicates_last date_of t)
  = drop_duplicates_last date_of t.
Proof.
  induction t as [|x t IH]; [done|]. simpl.
  fold (has_date (date_of x) t).
  destruct (has_date (date_of x) t) eqn:Hx; [done|]. simpl.
  fold (has_date (date_of x) (drop_duplicates_last date_of t)).
  by rewrite has_date_drop_duplicates, Hx, IH.
Qed.

(** Only rows of the second table whose date the later table does not carry
    survive a concatenation. *)
Lemma drop_duplicates_last_app t d :
  drop_duplicates_last date_of (t ++ d) =
    List.filter (fun r => negb (has_date (date_of r) d))
                (drop_duplicates_last date_of t)
    ++ drop_duplicates_last date_of d.
Proof.
  induction t as [|x t IH]; [done|]. simpl.
  fold (has_date (date_of x) (t ++ d)). fold (has_date (date_of x) t).
  rewrite has_date_app.
  destruct (has_date (date_of x) t) eqn:Hx; simpl; [done|].
  destruct (has_date (date_of x) d) eqn:Hd; simpl; by rewrite IH.
Qed.

Lemma has_date_In r t : In r t -> has_date (date_of r) t = true.
Proof.
  intros Hin. apply existsb_exists. exists r. split; [done|]. apply Z.eqb_refl.
Qed.

Lemma drop_duplicates_last_In r t :
  In r (drop_duplicates_last date_of t) -> In r t.
Proof.
  induction t as [|x t IH]; [done|]. simpl.
  destruct (existsb _ t); simpl; tauto.
Qed.

Lemma filter_absent_drop_duplicates d :
  List.filter (fun r => negb (has_date (date_of r) d))
              (drop_duplicates_last date_of d) = [].
Proof.
  assert (H : forall l, (forall r, In r l -> In r d) ->
            List.filter (fun r => negb (has_date (date_of r) d)) l = []).
  { induction l as [|x l IH]; [done|]. intros Hl. simpl.
    rewrite has_date_In by (apply Hl; by left). simpl.
    apply IH. intros r Hr. apply Hl. by right. }
  apply H. intros r. apply drop_duplicates_last_In.
Qed.

Lemma filter_twice (f : Row -> bool) t :
  List.filter f (List.filter f t) = List.filter f t.
Proof.
  induction t as [|x t IH]; [done|]. simpl.
  destruct (f x) eqn:Hf; simpl; [|done]. by rewrite Hf, IH.
Qed.

(** C4. Merging a delta into a base and merging the same delta into the
    result again gives the table of the first merge. *)
Theorem merge_history_idempotent base delta :
  merge_history date_of (merge_history date_of base delta) delta
  = merge_history date_of base delta.
Proof.
  unfold merge_history.
  rewrite (drop_duplicates_last_app (drop_duplicates_last date_of (base ++ delta))).
  rewrite drop_duplicates_last_fixed.
  rewrite (drop_duplicates_last_app base delta) at 1.
  rewrite List.filter_app, filter_twice, filter_absent_drop_duplicates.
  rewrite app_nil_r. symmetry. apply drop_duplicates_last_app.
Qed.

(** C5. With a base table on disk, a delta fetch that raises or returns an
    empty table leaves the pickled base as it was and the call returns that
    base. *)
Theorem incremental_fetch_failure_keeps_base d0 base_filename data_func today
    (disk : gmap string (list Row)) df_base last_date :
  disk !! base_filepath base_filename = Some df_base ->
  max_date date_of df_base = Some last_date ->
  (exists e, data_func (last_date + 1) = Raise e) \/
    data_func (last_date + 1) = Ok [] ->
  get_incremental_daily_data date_of d0 base_filename data_func today disk
  = (Ok df_base, disk).
Proof.
  intros Hbase Hmax Hfetch. unfold get_incremental_daily_data.
  rewrite Hbase, Hmax. destruct (last_date + 1 <=? today); [|done].
  by destruct Hfetch as [[e ->] | ->].
Qed.
End IncrementalHistoryFacts.

Lemma incremental_fetch_failure_keeps_base_witness :
  get_incremental_daily_data fst 0 "sh_index" (fun _ => Raise NetworkError)
    19730 demo_disk = (Ok demo_base, demo_disk) /\
  get_incremental_daily_data fst 0 "sh_index" (fun _ => Ok [])
    19730 demo_disk = (Ok demo_base, demo_disk).
Proof.
  split.
  - apply (incremental_fetch_failure_keeps_base fst 0 "sh_index"
             (fun _ => Raise NetworkError) 19730 demo_disk demo_base 19725);
      [reflexivity | reflexivity | left; by exists NetworkError].
  - apply (incremental_fetch_failure_keeps_base fst 0 "sh_index"
             (fun _ => Ok []) 19730 demo_disk demo_base 19725);
      [reflexivity | reflexivity | by right].
Defined.

(** ** The run-mode classifier *)

Lemma is_trade_day_calendar_dates lib calendar date_obj :
  _is_trade_day lib calendar date_obj =
    (fun dates => bool_decide (date_obj ∈ dates)) <$> calendar_dates lib calendar.
Proof.
  unfold _is_trade_day, calendar_dates. destruct calendar as [df|e]; [|done].
  destruct (df_empty df); [done|]. unfold df_getcol. simpl.
  repeat case_bool_decide; simpl;
    repeat match goal with
           | |- context [assoc_lookup ?c ?l] => destruct (assoc_lookup c l)
           end; done.
Qed.

Lemma hour_bucket lo hi h :
  (lo <=? h) && (h <? hi) = bool_decide (lo <= h < hi).
Proof.
  case_bool_decide as H.
  - apply andb_true_iff. split; [apply Z.leb_le|apply Z.ltb_lt]; lia.
  - apply andb_false_iff.
    destruct (Z.leb_spec lo h); [right|left; done].
    apply Z.ltb_ge. lia.
Qed.

Lemma keeps_mode_set_result key v a :
  run_mode (set_result key v a) = run_mode a /\
  is_trading_day (set_result key v a) = is_trading_day a.
Proof. done. Qed.

Lemma keeps_mode_then s1 s2 :
  keeps_mode s1 -> keeps_mode s2 -> keeps_mode (s1 >>> s2).
Proof.
  intros H1 H2 a. unfold then_step.
  destruct (H1 a) as [Hm Ht]. destruct (s1 a) as [[[]|e] a']; simpl in *.
  - destruct (H2 a') as [Hm' Ht']. by rewrite Hm', Ht'.
  - done.
Qed.

Lemma keeps_mode_guarded key body : keeps_mode (guarded key body).
Proof. intros a. unfold guarded. by destruct (body a). Qed.

Lemma keeps_mode_conclusion b : keeps_mode (analyze_conclusion b).
Proof.
  intros a. unfold analyze_conclusion.
  destruct (AI_TOOL_AVAILABLE b); simpl; [|done].
  by destruct (conclusion_body b a).
Qed.

Lemma keeps_mode_print_report b : keeps_mode (print_report b).
Proof. done. Qed.

Lemma keeps_mode_attach lib ljqs flow a :
  run_mode (attach_ljqs_counts lib ljqs flow a).2 = run_mode a /\
  is_trading_day (attach_ljqs_counts lib ljqs flow a).2 = is_trading_day a.
Proof.
  unfold attach_ljqs_counts.
  destruct (df_getcol ljqs _); [|done].
  by destruct (df_getcol flow _).
Qed.

Lemma keeps_mode_sector_strength lib : keeps_mode (analyze_sector_strength lib).
Proof.
  intros a. unfold analyze_sector_strength.
  destruct (data a !! "industry_fund_flow") as [flow|]; [|done].
  destruct (df_empty flow); [done|].
  destruct (if df_empty _ then _ else _) as [use|e]; [|done].
  destruct use.
  - pose proof (keeps_mode_attach lib
      (default empty_df (data a !! "rank_ljqs")) (df_rename rename_dict flow) a)
      as Hk.
    destruct (attach_ljqs_counts _ _ _ a) as [joined a1]. simpl in Hk.
    destruct joined as [f|e]; [|done].
    destruct (score_sectors lib f) as [scored|e]; [|done].
    by destruct (sort_values_desc scored _).
  - destruct (score_sectors lib _) as [scored|e]; [|done].
    by destruct (sort_values_desc scored _).
Qed.

Lemma keeps_mode_scoring lib : keeps_mode (comprehensive_scoring lib).
Proof.
  intros a. unfold comprehensive_scoring.
  destruct (not_truthy _) as [[]|e]; try done.
  destruct (value_empty _) as [[]|e]; try done.
  destruct (analysis_result a !! "sector_heat_map") as [[]|]; try done.
  destruct (analysis_result a !! "etf_technical") as [[]|]; try done.
  destruct (theme_to_heat df) as [t2h|e]; [|done].
  by destruct (score_all lib t2h l).
Qed.

Lemma keeps_mode_pipeline lib b : keeps_mode (pipeline lib b).
Proof.
  unfold pipeline.
  repeat (apply keeps_mode_then;
          [first [apply keeps_mode_guarded | apply keeps_mode_sector_strength
                 | apply keeps_mode_scoring | apply keeps_mode_conclusion]|]).
  apply keeps_mode_print_report.
Qed.

(** C6. The run mode that [run_analysis] leaves in the analyzer, whatever
    the rest of the run does, is the one the rule of the specification
    gives: POST_MARKET when today is not a trading day (by the calendar, or
    by the weekday test when the calendar is unavailable), and otherwise the
    bucket of the current hour. *)
Theorem run_mode_classification lib b now calendar fetch a :
  let final := (run_analysis lib b now calendar fetch a).2 in
  is_trading_day final = Some (spec_is_trading_day lib calendar now) /\
  run_mode final =
    Some (spec_run_mode (spec_is_trading_day lib calendar now) (hour now)).
Proof.
  unfold run_analysis, fetch_data. cbn zeta.
  rewrite is_trade_day_calendar_dates.
  set (trading := match _ <$> calendar_dates lib calendar with
                  | Some verdict => verdict
                  | None => weekday now <? 5
                  end).
  assert (Htr : trading = spec_is_trading_day lib calendar now).
  { unfold trading, spec_is_trading_day.
    by destruct (calendar_dates lib calendar). }
  assert (Hmode :
    (if trading
     then if (9 <=? hour now) && (hour now <? 12) then LIVE_MORNING
          else if (12 <=? hour now) && (hour now <? 13) then MIDDAY_SUMMARY
          else if (13 <=? hour now) && (hour now <? 15) then LIVE_AFTERNOON
          else POST_MARKET
     else POST_MARKET) = spec_run_mode trading (hour now)).
  { unfold spec_run_mode. rewrite !hour_bucket. by destruct trading. }
  rewrite Hmode, Htr. cbn [analysis_result].
  destruct (fetch_ok fetch); [|done].
  match goal with
  | |- context [pipeline lib b ?s] => destruct (keeps_mode_pipeline lib b s) as [Hm Ht]
  end.
  cbn zeta. rewrite Hm, Ht. done.
Qed.

(** ** The analyzer boundaries *)

(** An analyzer wrapped in [try ... except Exception] never raises; when its
    body raises, its key holds the empty dictionary, and every other key and
    field of the analyzer is as before. *)
Lemma guarded_isolates key body a :
  (guarded key body a).1 = Ok tt /\
  (forall e, body a = Raise e ->
     (guarded key body a).2 = set_result key (RDict ∅) a) /\
  (forall payload, body a = Ok payload ->
     (guarded key body a).2 = set_result key (RDict payload) a).
Proof.
  unfold guarded. destruct (body a) as [payload|e]; simpl.
  - split; [done|]. split; [done|]. by intros ? [= ->].
  - split; [done|]. split; [done|]. done.
Qed.

(** After a wrapped analyzer the run goes on with the next method. *)
Lemma guarded_then key body (next : Step) a :
  (guarded key body >>> next) a = next (guarded key body a).2.
Proof. unfold then_step, guarded. by destruct (body a). Qed.

(** The sentiment analyzer on a complete snapshot: 3000 rising against 1500
    falling is a profit effect of 66.67, which with 85 limit-ups reads as
    greedy; on an empty snapshot its body raises and the key holds [{}]. *)
Example sentiment_on_snapshot :
  (exists payload,
     analyze_market_sentiment demo_lib sentiment_input
       = (Ok tt, set_result "sentiment" (RDict payload) sentiment_input) /\
     payload !! "综合情绪" = Some (VStr "贪婪") /\
     payload !! "涨停家数" = Some (VInt 85) /\
     payload !! "炸板率" = Some (VStr "未知")) /\
  analyze_market_sentiment demo_lib new_analyzer
    = (Ok tt, set_result "sentiment" (RDict ∅) new_analyzer).
Proof.
  split; [|reflexivity].
  destruct (sentiment_body demo_lib sentiment_input) as [payload|e] eqn:Hbody;
    [|vm_compute in Hbody; discriminate].
  exists payload. unfold analyze_market_sentiment, guarded. rewrite Hbody.
  split; [done|]. vm_compute in Hbody. injection Hbody as <-.
  vm_compute. repeat split.
Qed.

(** [analyze_sector_strength] has no such boundary: with a non-empty flow
    table and a non-empty co-rising table, an industry map that is a frame
    makes line 1167 raise, and the exception leaves the method with nothing
    written. *)
Lemma sector_strength_raises lib a flow ljqs df :
  data a !! "industry_fund_flow" = Some flow ->
  df_empty flow = false ->
  data a !! "rank_ljqs" = Some ljqs ->
  df_empty ljqs = false ->
  stock_to_industry_map a = IndustryFrame df ->
  analyze_sector_strength lib a = (Raise ValueError, a).
Proof.
  intros Hflow Hne Hljqs Hne' Hmap. unfold analyze_sector_strength.
  rewrite Hflow, Hne, Hljqs. simpl. by rewrite Hne', Hmap.
Qed.

(** An exception that leaves a method ends the sequence. *)
Lemma then_step_raise (s next : Step) a e a' :
  s a = (Raise e, a') -> (s >>> next) a = (Raise e, a').
Proof. unfold then_step. by intros ->. Qed.

(** C1 at its failing input.  The industry listing could not be fetched, so
    [stock_to_industry_map] is the empty frame handed back by [cache_data];
    the flow and co-rising tables are there.  The turnover body raises and
    the sentiment body raises for want of its activity table: both are
    contained by their boundaries and leave the empty dictionary.  The
    exception of [analyze_sector_strength] is not contained:
    [run_analysis] raises, the sector key is never written and no later
    method runs. *)
Theorem sector_strength_exception_escapes :
  let '(r, a) :=
    run_analysis demo_lib demo_bodies ten_oclock (Ok demo_calendar)
                 fetch_without_industry_map new_analyzer in
  r = Raise ValueError /\
  analysis_result a !! "turnover" = Some (RDict ∅) /\
  analysis_result a !! "limitup" = Some (RDict demo_limitup) /\
  analysis_result a !! "sentiment" = Some (RDict ∅) /\
  analysis_result a !! "sector_heat_map" = None /\
  analysis_result a !! "market_stage" = None /\
  analysis_result a !! "conclusion_raw" = None.
Proof. vm_compute. repeat split. Qed.

(** ** The sector heat *)

Lemma assoc_lookup_set_same {V} k (v : V) l :
  assoc_lookup k (assoc_set k v l) = Some v.
Proof.
  induction l as [|[k0 v0] l IH]; simpl.
  - by rewrite String.eqb_refl.
  - destruct (String.eqb k k0) eqn:E; simpl.
    + by rewrite String.eqb_refl.
    + by rewrite E.
Qed.

Lemma assoc_lookup_set_other {V} k k' (v : V) l :
  String.eqb k k' = false ->
  assoc_lookup k (assoc_set k' v l) = assoc_lookup k l.
Proof.
  intros Hne. induction l as [|[k0 v0] l IH]; simpl.
  - by rewrite Hne.
  - destruct (String.eqb k' k0) eqn:E; simpl.
    + apply String.eqb_eq in E as <-. by rewrite Hne.
    + by rewrite IH.
Qed.

Lemma df_len_setcol_same df col c c' :
  df_getcol df col = Ok c -> length c' = length c ->
  df_len (df_setcol df col c') = df_len df.
Proof.
  unfold df_getcol, df_setcol, df_len. destruct df as [[|[k0 c0] l]]; simpl.
  - done.
  - destruct (String.eqb col k0); simpl; [|done].
    by intros [= ->] ->.
Qed.

Lemma existsb_notna xs : existsb notna xs = negb (forallb isna xs).
Proof.
  induction xs as [|x xs IH]; [done|]. simpl. rewrite IH.
  unfold notna. by destruct (isna x).
Qed.

Lemma fund_strength_spec lib df :
  fund_strength lib df = spec_fund_strength lib df.
Proof.
  unfold fund_strength, spec_fund_strength.
  destruct (assoc_lookup _ _) as [col|]; [|done].
  rewrite existsb_notna. by destruct (forallb _ _).
Qed.

Lemma score_sectors_heat lib flow counts :
  df_getcol flow "量价齐升家数" = Ok counts ->
  exists scored,
    score_sectors lib flow = Ok scored /\
    df_getcol scored "热力值" =
      Ok (float_cells (heat_values (spec_popularity lib counts)
                                   (spec_fund_strength lib flow))).
Proof.
  intros Hc. unfold score_sectors. rewrite Hc. eexists. split; [done|].
  unfold df_getcol, df_setcol at 1. cbn [df_series].
  rewrite assoc_lookup_set_same. do 2 f_equal.
  rewrite fund_strength_spec. unfold spec_fund_strength.
  unfold df_setcol at 1. cbn [df_series].
  rewrite assoc_lookup_set_other by done.
  rewrite (df_len_setcol_same flow _ counts); [done|done|].
  unfold float_cells, numeric_counts. by rewrite !length_map.
Qed.

(** ** The scoring engine *)

Lemma Qlt_bool_true a b : Qlt_bool a b = true <-> (a < b)%Q.
Proof. apply (flt_Fin_true a b). Qed.

Lemma Qlt_bool_false a b : Qlt_bool a b = false <-> (b <= a)%Q.
Proof. apply (flt_Fin_false a b). Qed.

(** Clipping a number gives a number between the bounds. *)
Lemma np_clip_in_range q :
  exists r, np_clip (Fin q) (Fin 0) (Fin 5) = Fin r /\ (0 <= r <= 5)%Q.
Proof.
  unfold np_clip, np_maximum, np_minimum.
  destruct (Qlt_bool q 0) eqn:E0.
  - exists 0%Q. split; [done|]. split; [apply Qle_refl|discriminate].
  - apply Qlt_bool_false in E0.
    destruct (Qlt_bool 5 q) eqn:E5.
    + exists 5%Q. split; [done|]. split; [discriminate|apply Qle_refl].
    + apply Qlt_bool_false in E5. exists q. by split.
Qed.

(** Clipping propagates NaN. *)
Lemma np_clip_nan lo hi : np_clip NaN lo hi = NaN.
Proof. done. Qed.

(** The score of one instrument: the base score plus (heat - 50) / 15,
    clipped to [0, 5]. *)
Lemma score_etf_formula lib t2h etf heat :
  cell_float (heat_cell_of t2h etf) = Ok heat ->
  exists row,
    score_etf lib t2h etf = Ok row /\
    final_score row =
      np_clip (fadd (base_score etf) (fdiv (fsub heat (Fin 50)) (Fin 15)))
              (Fin 0) (Fin 5).
Proof.
  unfold heat_cell_of, score_etf.
  destruct (get_etf_sector_and_theme (etf_name etf)) as [sector theme].
  cbn [fst]. intros ->. eexists. split; done.
Qed.

(** Numbers are clipped into the range; NaN goes through the adjustment and
    the clipping. *)
Lemma clipped_score_cases base heat :
  let final :=
    np_clip (fadd base (fdiv (fsub heat (Fin 50)) (Fin 15))) (Fin 0) (Fin 5) in
  (notna base && notna heat = true -> in_score_range final = true) /\
  (notna base && notna heat = false ->
     final = NaN /\ in_score_range final = false).
Proof.
  destruct base as [|b], heat as [|h]; cbn [notna isna negb andb];
    (split; [|done]); try done.
  intros _. cbn [fadd fsub fdiv fbin].
  destruct (np_clip_in_range (b + (h - 50) / 15)) as (r & -> & Hlo & Hhi).
  unfold in_score_range, fle. apply andb_true_iff.
  split; by apply Qle_bool_iff.
Qed.

Lemma score_all_rows lib t2h etfs :
  (forall etf, In etf etfs -> exists heat, cell_float (heat_cell_of t2h etf) = Ok heat) ->
  exists rows,
    score_all lib t2h etfs = Ok rows /\
    Forall2 (fun etf row => score_etf lib t2h etf = Ok row) etfs rows.
Proof.
  induction etfs as [|etf etfs IH]; intros Hcells.
  - exists []. by split; [|constructor].
  - destruct (Hcells etf (or_introl eq_refl)) as (heat & Hheat).
    destruct (score_etf_formula lib t2h etf heat Hheat) as (row & Hrow & _).
    destruct IH as (rows & Hrows & Hall).
    { intros etf' Hin. apply Hcells. by right. }
    exists (row :: rows). cbn [score_all]. rewrite Hrow, Hrows.
    split; [done|by constructor].
Qed.




(** ** The narrative call *)

Lemma lower_char_is_x c :
  Ascii.eqb (lower_char c) "x" = Ascii.eqb c "x" || Ascii.eqb c "X".
Proof. destruct c as [[] [] [] [] [] [] [] []]; reflexivity. Qed.

Lemma all_chars_lower p v :
  all_chars p (lower v) = all_chars (fun c => p (lower_char c)) v.
Proof. induction v as [|c v IH]; [done|]. simpl. by rewrite IH. Qed.

Lemma all_chars_ext p q v :
  (forall c, p c = q c) -> all_chars p v = all_chars q v.
Proof. intros H. induction v as [|c v IH]; [done|]. simpl. by rewrite H, IH. Qed.

Lemma all_chars_weaken (p q : ascii -> bool) v :
  (forall c, p c = true -> q c = true) ->
  all_chars p v = true -> all_chars q v = true.
Proof.
  intros H. induction v as [|c v IH]; [done|]. simpl.
  rewrite !andb_true_iff. intros [Hc Hv]. split; [by apply H|by apply IH].
Qed.

Lemma set_is_x_lower v : set_is_x v || set_is_x (lower v) = only_x v.
Proof.
  destruct v as [|c v]; [done|].
  change (set_is_x (lower (String c v)))
    with (all_chars (fun c => Ascii.eqb c "x") (lower (String c v))).
  rewrite all_chars_lower.
  rewrite (all_chars_ext _ _ _ lower_char_is_x).
  change (only_x (String c v))
    with (all_chars (fun c => Ascii.eqb c "x" || Ascii.eqb c "X") (String c v)).
  change (set_is_x (String c v))
    with (all_chars (fun c => Ascii.eqb c "x") (String c v)).
  destruct (all_chars (fun c0 => Ascii.eqb c0 "x") (String c v)) eqn:E; [|done].
  symmetry. apply (all_chars_weaken _ _ _ (fun c0 H => orb_true_intro _ _ (or_introl H)) E).
Qed.

(** The placeholder test: the empty string, or a string that after
    stripping is made of the letters x and X only. *)
Lemma is_placeholder_spec s :
  _is_placeholder (Some s) =
    match s with EmptyString => true | _ => only_x (strip s) end.
Proof. destruct s; [done|]. apply set_is_x_lower. Qed.

Lemma handle_exception_is_failure py_str e :
  is_failure_text (handle_exception py_str e) = true.
Proof. by destruct e as [msg [resp|]|msg|msg]. Qed.

Lemma handle_response_cases py_str http_msg resp :
  (exists v, handle_response py_str http_msg resp = Returns v /\
             is_failure_text v = true) \/
  (exists e, handle_response py_str http_msg resp = Throws e) \/
  (exists data v,
      (status_code resp < 400 \/ 600 <= status_code resp) /\
      json_of resp = JsonOk data /\
      extract_content data = Returns v /\
      handle_response py_str http_msg resp = Returns v).
Proof.
  unfold handle_response.
  destruct (Z.eqb_spec (status_code resp) 401); [left; eauto|].
  destruct (Z.eqb_spec (status_code resp) 403); [left; eauto|].
  destruct (Z.eqb_spec (status_code resp) 400); [left; eauto|].
  destruct (_ && _) eqn:Hrange; [right; left; eauto|].
  destruct (json_of resp) as [data|msg|msg] eqn:Hjson;
    [|right; left; eauto|right; left; eauto].
  destruct (extract_content data) as [v|e] eqn:Hx; [|right; left; eauto].
  right; right. exists data, v. split; [|done].
  apply andb_false_iff in Hrange as [H|H].
  - left. by apply Z.leb_gt.
  - right. by apply Z.ltb_ge.
Qed.



(* ===================================================================== *)
(** * Part III. Further properties of the code                            *)
(* ===================================================================== *)

(** ** The column normalizer *)

(** [_pick_col] returns the first candidate that is a column of the frame:
    the candidates before it are all absent; it returns [None] exactly when
    no candidate is a column. *)
Theorem pick_col_first_present df candidates :
  match _pick_col df candidates with
  | Some col =>
      exists pre post,
        candidates = pre ++ col :: post /\
        col ∈ df_columns df /\
        Forall (fun c => c ∉ df_columns df) pre
  | None => Forall (fun c => c ∉ df_columns df) candidates
  end.
Proof.
  induction candidates as [|c rest IH]; simpl; [constructor|].
  case_bool_decide as Hc.
  - exists [], rest. by repeat split.
  - destruct (_pick_col df rest) as [col|].
    + destruct IH as (pre & post & -> & Hin & Hpre).
      exists (c :: pre), post. repeat split; [done|]. by constructor.
    + by constructor.
Qed.

(** ** The bucketed cache: hits *)

(** After a miss whose producer answers, the answer is memoized and
    persisted: the same request is then served without the producer,
    whichever producer is passed, both in the same process and in a new
    process that finds only the files. *)
Theorem cache_data_store_then_hit clock filename data_func args kwargs
    frequency w data :
  let filepath :=
    cache_filepath filename args kwargs (bucket_label clock frequency) in
  memo w !! filepath = None ->
  files w !! filepath = None ->
  data_func (producer_calls w) = Ok data ->
  exists w',
    cache_data clock filename data_func args kwargs frequency w = (Ok data, w') /\
    producer_calls w' = S (producer_calls w) /\
    (forall other_func,
        cache_data clock filename other_func args kwargs frequency w'
        = (Ok data, w')) /\
    (forall other_func n,
        cache_data clock filename other_func args kwargs frequency
                   (mkWorld ∅ (files w') n)
        = (Ok data, mkWorld {[filepath := data]} (files w') n)).
Proof.
  intros filepath Hmemo Hfiles Hok. eexists. unfold cache_data. fold filepath.
  rewrite Hmemo, Hfiles, Hok. split; [done|]. split; [done|]. split.
  - intros other_func. cbn [memo]. by rewrite lookup_insert_eq.
  - intros other_func n. cbn [memo files]. rewrite lookup_empty.
    by rewrite lookup_insert_eq.
Qed.

Lemma cache_data_store_then_hit_witness :
  exists w',
    cache_data demo_clock "zt_pool" (fun _ => Ok ten_rows) [] [] "hourly"
               fresh_world = (Ok ten_rows, w') /\
    cache_data demo_clock "zt_pool" flaky_producer [] [] "hourly" w'
      = (Ok ten_rows, w').
Proof.
  destruct (cache_data_store_then_hit demo_clock "zt_pool"
              (fun _ => Ok ten_rows) [] [] "hourly" fresh_world ten_rows)
    as (w' & Hstore & _ & Hhit & _); [reflexivity..|].
  exists w'. split; [exact Hstore|apply Hhit].
Defined.

Lemma string_app_length (a b : string) :
  String.length (a +:+ b) = (String.length a + String.length b)%nat.
Proof. induction a as [|c a IH]; simpl; [done|]. by rewrite IH. Qed.

Lemma string_app_inj_l (p a b : string) : p +:+ a = p +:+ b -> a = b.
Proof. induction p as [|c p IH]; simpl; [done|]. intros [= H]. by apply IH. Qed.

Lemma string_app_inj_r (a b t : string) : a +:+ t = b +:+ t -> a = b.
Proof.
  revert b. induction a as [|c a IH]; intros [|c' b] H; simpl in *.
  - done.
  - apply (f_equal String.length) in H.
    rewrite ?string_app_length in H. simpl in H.
    rewrite ?string_app_length in H. lia.
  - apply (f_equal String.length) in H.
    rewrite ?string_app_length in H. simpl in H.
    rewrite ?string_app_length in H. lia.
  - injection H as -> H. f_equal. by apply IH.
Qed.

Lemma cache_filepath_label_inj filename args kwargs l1 l2 :
  cache_filepath filename args kwargs l1 = cache_filepath filename args kwargs l2 ->
  l1 = l2.
Proof.
  unfold cache_filepath. intros H.
  do 5 apply string_app_inj_l in H. by apply string_app_inj_r in H.
Qed.

(** An entry belongs to its bucket: when the bucket label has rolled over
    and nothing is stored under the new label, the same request invokes the
    producer again even though the answer of the previous bucket is still
    memoized and on disk. *)
Theorem cache_data_rollover_misses clock clock' filename data_func args kwargs
    frequency w data :
  let filepath :=
    cache_filepath filename args kwargs (bucket_label clock frequency) in
  let filepath' :=
    cache_filepath filename args kwargs (bucket_label clock' frequency) in
  memo w !! filepath = None ->
  files w !! filepath = None ->
  data_func (producer_calls w) = Ok data ->
  bucket_label clock' frequency <> bucket_label clock frequency ->
  memo w !! filepath' = None ->
  files w !! filepath' = None ->
  let w1 := (cache_data clock filename data_func args kwargs frequency w).2 in
  let '(r2, w2) :=
    cache_data clock' filename data_func args kwargs frequency w1 in
  producer_calls w2 = S (S (producer_calls w)) /\
  r2 = match data_func (S (producer_calls w)) with
       | Ok data' => Ok data'
       | Raise _ => Ok empty_df
       end /\
  memo w2 !! filepath = Some data /\ files w2 !! filepath = Some data.
Proof.
  intros filepath filepath' Hmemo Hfiles Hok Hlabel Hmemo' Hfiles'.
  assert (Hne : filepath <> filepath').
  { intros Heq. apply Hlabel. symmetry.
    by apply (cache_filepath_label_inj filename args kwargs). }
  unfold cache_data. fold filepath filepath'.
  rewrite Hmemo, Hfiles, Hok. cbn [snd memo files producer_calls].
  rewrite !lookup_insert_ne by done. rewrite Hmemo', Hfiles'.
  destruct (data_func (S (producer_calls w))) as [data'|e];
    cbn [memo files producer_calls].
  - assert (Hne' : filepath' <> filepath) by (by intros Heq; apply Hne).
    rewrite !(lookup_insert_ne _ filepath' filepath) by exact Hne'.
    by rewrite !lookup_insert_eq.
  - by rewrite !lookup_insert_eq.
Qed.

Lemma cache_data_rollover_misses_witness :
  let w1 :=
    (cache_data demo_clock "zt_pool" (fun _ => Ok ten_rows) [] [] "hourly"
                fresh_world).2 in
  let '(r2, w2) :=
    cache_data (mkClock "2024010210" "20240102") "zt_pool"
               (fun _ => Ok ten_rows) [] [] "hourly" w1 in
  producer_calls w2 = 2%nat /\ r2 = Ok ten_rows /\
  memo w2 !! demo_path = Some ten_rows /\ files w2 !! demo_path = Some ten_rows.
Proof.
  apply (cache_data_rollover_misses demo_clock (mkClock "2024010210" "20240102")
           "zt_pool" (fun _ => Ok ten_rows) [] [] "hourly" fresh_world ten_rows);
    try reflexivity.
  vm_compute. discriminate.
Defined.

(** ** The incremental history: what a merge keeps *)

Section MergeFacts.
Context {Row : Type}.
Variable date_of : Row -> Z.
Implicit Types (t base delta : list Row) (r : Row) (k : Z).

Lemma has_date_false_not_in k t :
  has_date date_of k t = false -> k ∉ map date_of t.
Proof.
  intros Hk Hin. apply list_elem_of_In, in_map_iff in Hin as (r & <- & Hr).
  by rewrite (has_date_In date_of r t) in Hk.
Qed.

Lemma has_date_true_in k t :
  has_date date_of k t = true -> k ∈ map date_of t.
Proof.
  intros Hk. apply existsb_exists in Hk as (r & Hr & Heq).
  apply Z.eqb_eq in Heq as <-. apply list_elem_of_In, in_map. done.
Qed.

Lemma drop_duplicates_last_NoDup t :
  NoDup (map date_of (drop_duplicates_last date_of t)).
Proof.
  induction t as [|x t IH]; simpl; [constructor|].
  fold (has_date date_of (date_of x) t).
  destruct (has_date date_of (date_of x) t) eqn:Hx; [done|].
  simpl. constructor; [|done].
  apply has_date_false_not_in. by rewrite has_date_drop_duplicates.
Qed.

Lemma drop_duplicates_last_split r t :
  In r (drop_duplicates_last date_of t) ->
  exists pre post, t = pre ++ r :: post /\
                   has_date date_of (date_of r) post = false.
Proof.
  induction t as [|x t IH]; simpl; [done|].
  fold (has_date date_of (date_of x) t).
  destruct (has_date date_of (date_of x) t) eqn:Hx.
  - intros Hin. destruct (IH Hin) as (pre & post & -> & Hpost).
    by exists (x :: pre), post.
  - intros [<- | Hin].
    + by exists [], t.
    + destruct (IH Hin) as (pre & post & -> & Hpost).
      by exists (x :: pre), post.
Qed.

Lemma drop_duplicates_last_id t :
  NoDup (map date_of t) -> drop_duplicates_last date_of t = t.
Proof.
  induction t as [|x t IH]; simpl; [done|].
  intros Hnd. apply NoDup_cons in Hnd as [Hx Hnd].
  fold (has_date date_of (date_of x) t).
  destruct (has_date date_of (date_of x) t) eqn:E.
  - exfalso. apply Hx. by apply has_date_true_in.
  - by rewrite IH.
Qed.

Lemma filter_all (f : Row -> bool) t :
  (forall r, In r t -> f r = true) -> List.filter f t = t.
Proof.
  induction t as [|x t IH]; simpl; [done|]. intros H.
  rewrite (H x) by (by left). f_equal. apply IH. intros r Hr. apply H. by right.
Qed.

Lemma max_date_upper t last r :
  max_date date_of t = Some last -> In r t -> date_of r <= last.
Proof.
  destruct t as [|x t]; [done|]. simpl. intros [= <-].
  assert (Hfold : forall l acc,
    acc <= fold_left Z.max l acc /\
    forall z, In z l -> z <= fold_left Z.max l acc).
  { induction l as [|y l IH]; intros acc; simpl; [split; [lia|done]|].
    destruct (IH (Z.max acc y)) as [Hacc Hl]. split; [lia|].
    intros z [<- | Hz]; [lia|by apply Hl]. }
  destruct (Hfold (map date_of t) (date_of x)) as [Hacc Hl].
  intros [<- | Hr]; [done|]. apply Hl. by apply in_map.
Qed.

(** After a merge no two rows carry the same date. *)
Theorem merge_history_unique_dates base delta :
  NoDup (map date_of (merge_history date_of base delta)).
Proof. apply drop_duplicates_last_NoDup. Qed.

(** A merge loses no date and invents none: the merged table carries a
    date exactly when the base or the delta does. *)
Theorem merge_history_keeps_every_date base delta k :
  has_date date_of k (merge_history date_of base delta)
  = has_date date_of k base || has_date date_of k delta.
Proof.
  unfold merge_history. rewrite has_date_drop_duplicates.
  apply existsb_app.
Qed.

(** The newest write for a date wins: a merged row whose date occurs in the
    delta is the last row of that date in the delta; any other merged row
    is a row of the base. *)
Theorem merge_history_newest_wins base delta r :
  In r (merge_history date_of base delta) ->
  (has_date date_of (date_of r) delta = true ->
     exists pre post, delta = pre ++ r :: post /\
                      has_date date_of (date_of r) post = false) /\
  (has_date date_of (date_of r) delta = false -> In r base).
Proof.
  unfold merge_history. rewrite drop_duplicates_last_app.
  intros Hin. apply in_app_or in Hin as [Hin | Hin].
  - apply filter_In in Hin as [Hb Hd]. apply negb_true_iff in Hd.
    split; [by rewrite Hd|]. intros _.
    by apply (drop_duplicates_last_In date_of).
  - split.
    + intros _. by apply drop_duplicates_last_split.
    + intros Hd. apply (drop_duplicates_last_In date_of) in Hin.
      by rewrite (has_date_In date_of r delta) in Hd.
Qed.

(** When the base has one row per date and every row of the delta is
    later than the last date of the base, the merge keeps the base as it
    is, row for row, and appends the delta with its own duplicates
    resolved. *)
Theorem merge_history_appends base delta last :
  NoDup (map date_of base) ->
  max_date date_of base = Some last ->
  Forall (fun r => last < date_of r) delta ->
  merge_history date_of base delta
  = base ++ drop_duplicates_last date_of delta.
Proof.
  intros Hnd Hmax Hnew. unfold merge_history.
  rewrite drop_duplicates_last_app, (drop_duplicates_last_id base Hnd).
  f_equal. apply filter_all. intros r Hr. apply negb_true_iff.
  destruct (has_date date_of (date_of r) delta) eqn:Hd; [|done].
  apply existsb_exists in Hd as (r' & Hr' & Heq). apply Z.eqb_eq in Heq.
  rewrite Forall_forall in Hnew. apply list_elem_of_In in Hr'.
  specialize (Hnew r' Hr').
  pose proof (max_date_upper base last r Hmax Hr). lia.
Qed.
End MergeFacts.

Lemma merge_history_newest_wins_witness :
  exists pre post,
    demo_delta = pre ++ (19725, "c2") :: post /\
    has_date fst 19725 post = false.
Proof.
  apply (proj1 (merge_history_newest_wins fst demo_base demo_delta (19725, "c2")
                  ltac:(vm_compute; tauto))).
  reflexivity.
Defined.

Lemma merge_history_appends_witness :
  merge_history fst demo_base [(19726, "d"); (19727, "e"); (19726, "d2")]
  = demo_base ++ [(19727, "e"); (19726, "d2")].
Proof.
  apply (merge_history_appends fst demo_base
           [(19726, "d"); (19727, "e"); (19726, "d2")] 19725).
  - compute_done.
  - reflexivity.
  - repeat constructor.
Defined.

(** ** The incremental history: the stored base *)

Section IncrementalStoreFacts.
Context {Row : Type}.
Variable date_of : Row -> Z.
Variable d0 : Z.
Implicit Types (disk : gmap string (list Row)).

(** A successful incremental update returns what it stores: the merged
    table becomes the base on disk, it has one row per date, and it carries
    every date of the previous base. *)
Theorem incremental_update_persists base_filename data_func today disk
    df_base last_date df_new :
  disk !! base_filepath base_filename = Some df_base ->
  max_date date_of df_base = Some last_date ->
  last_date + 1 <= today ->
  data_func (last_date + 1) = Ok df_new ->
  df_new <> [] ->
  exists merged,
    get_incremental_daily_data date_of d0 base_filename data_func today disk
      = (Ok merged, <[base_filepath base_filename := merged]> disk) /\
    NoDup (map date_of merged) /\
    (forall k, has_date date_of k df_base = true ->
               has_date date_of k merged = true) /\
    (forall r, In r df_new -> has_date date_of (date_of r) merged = true).
Proof.
  intros Hbase Hmax Htoday Hfetch Hne.
  exists (merge_history date_of df_base df_new).
  unfold get_incremental_daily_data. rewrite Hbase, Hmax.
  rewrite (proj2 (Z.leb_le _ _) Htoday), Hfetch.
  destruct df_new as [|r0 df_new]; [done|]. cbn [table_empty negb].
  split; [done|]. split; [apply drop_duplicates_last_NoDup|].
  unfold merge_history. split.
  - intros k Hk. rewrite has_date_drop_duplicates.
    unfold has_date. rewrite existsb_app. fold (has_date date_of k df_base).
    by rewrite Hk.
  - intros r Hr. rewrite has_date_drop_duplicates.
    apply has_date_In. apply in_or_app. by right.
Qed.

(** The first call stores what the full fetch returned; as long as the
    last stored date is not before today, later calls return that table
    without fetching, whatever the fetch would answer. *)
Theorem incremental_first_fetch_then_reuse base_filename data_func today disk
    df_full last_date :
  disk !! base_filepath base_filename = None ->
  data_func d0 = Ok df_full ->
  max_date date_of df_full = Some last_date ->
  today <= last_date ->
  let disk1 := <[base_filepath base_filename := df_full]> disk in
  get_incremental_daily_data date_of d0 base_filename data_func today disk
    = (Ok df_full, disk1) /\
  forall other_func,
    get_incremental_daily_data date_of d0 base_filename other_func today disk1
    = (Ok df_full, disk1).
Proof.
  intros Hnone Hfetch Hmax Htoday disk1. unfold get_incremental_daily_data.
  rewrite Hnone, Hfetch. split; [done|]. intros other_func.
  unfold disk1. rewrite lookup_insert_eq, Hmax.
  by rewrite (proj2 (Z.leb_gt _ _)) by lia.
Qed.

(** A first fetch that succeeds with an empty table is stored as the base.
    From then on every call raises before it fetches anything, and the
    empty base stays on disk: the history is never filled. *)
Theorem incremental_empty_first_fetch_sticks base_filename data_func today disk :
  disk !! base_filepath base_filename = None ->
  data_func d0 = Ok [] ->
  let disk1 := <[base_filepath base_filename := []]> disk in
  get_incremental_daily_data date_of d0 base_filename data_func today disk
    = (Ok [], disk1) /\
  forall other_func today',
    get_incremental_daily_data date_of d0 base_filename other_func today' disk1
    = (Raise ValueError, disk1).
Proof.
  intros Hnone Hfetch disk1. unfold get_incremental_daily_data.
  rewrite Hnone, Hfetch. split; [done|]. intros other_func today'.
  unfold disk1. by rewrite lookup_insert_eq.
Qed.
End IncrementalStoreFacts.

Lemma incremental_update_persists_witness :
  exists merged,
    get_incremental_daily_data fst 0 "sh_index" (fun _ => Ok demo_delta)
      19730 demo_disk
    = (Ok merged, <[base_filepath "sh_index" := merged]> demo_disk) /\
    NoDup (map fst merged).
Proof.
  destruct (incremental_update_persists fst 0 "sh_index"
              (fun _ => Ok demo_delta) 19730 demo_disk demo_base 19725
              demo_delta)
    as (merged & Hrun & Hnd & _); [reflexivity|reflexivity|lia|reflexivity|done|].
  by exists merged.
Defined.

Lemma incremental_first_fetch_then_reuse_witness :
  get_incremental_daily_data fst 0 "sz_index" (fun _ => Ok demo_base) 19725 ∅
    = (Ok demo_base, <[base_filepath "sz_index" := demo_base]> ∅) /\
  get_incremental_daily_data fst 0 "sz_index" (fun _ => Raise NetworkError)
    19725 (<[base_filepath "sz_index" := demo_base]> ∅)
    = (Ok demo_base, <[base_filepath "sz_index" := demo_base]> ∅).
Proof.
  destruct (incremental_first_fetch_then_reuse fst 0 "sz_index"
              (fun _ => Ok demo_base) 19725 ∅ demo_base 19725)
    as [Hfirst Hreuse]; [reflexivity|reflexivity|reflexivity|lia|].
  split; [exact Hfirst|apply Hreuse].
Defined.

Lemma incremental_empty_first_fetch_sticks_witness :
  get_incremental_daily_data fst 0 "bj50" (fun _ => Ok []) 19725
    (∅ : gmap string (list (Z * string)))
    = (Ok [], <[base_filepath "bj50" := []]> ∅) /\
  get_incremental_daily_data fst 0 "bj50" (fun _ => Ok demo_base) 19726
    (<[base_filepath "bj50" := []]> ∅)
    = (Raise ValueError, <[base_filepath "bj50" := []]> ∅).
Proof.
  destruct (incremental_empty_first_fetch_sticks (Row := Z * string) fst 0
              "bj50" (fun _ => Ok []) 19725 ∅)
    as [Hfirst Hlater]; [reflexivity|reflexivity|].
  split; [exact Hfirst|apply Hlater].
Defined.

(** ** The cache sweep *)

Lemma list_ascii_app (a b : string) :
  list_ascii_of_string (a +:+ b)
  = list_ascii_of_string a ++ list_ascii_of_string b.
Proof. induction a as [|c a IH]; simpl; [done|]. by rewrite IH. Qed.

Lemma append_cons c (a b : string) : String c a +:+ b = String c (a +:+ b).
Proof. reflexivity. Qed.

Lemma append_nil (b : string) : "" +:+ b = b.
Proof. reflexivity. Qed.

Lemma string_app_assoc (a b c : string) : (a +:+ b) +:+ c = a +:+ b +:+ c.
Proof.
  induction a as [|x a IH]; [done|]. by rewrite !append_cons, IH.
Qed.

Lemma string_length_list (s : string) :
  length (list_ascii_of_string s) = String.length s.
Proof. induction s as [|c s IH]; simpl; [done|]. by rewrite IH. Qed.

Lemma substring_all (s : string) : substring 0 (String.length s) s = s.
Proof. induction s as [|c s IH]; simpl; [done|]. by rewrite IH. Qed.

Lemma substring_prefix (kw b : string) :
  substring 0 (String.length kw) (kw +:+ b) = kw.
Proof.
  induction kw as [|c kw IH].
  - rewrite append_nil. by destruct b.
  - rewrite append_cons. cbn [String.length substring]. by rewrite IH.
Qed.

Lemma substring_middle (a kw b : string) :
  substring (String.length a) (String.length kw) (a +:+ kw +:+ b) = kw.
Proof.
  induction a as [|c a IH].
  - rewrite append_nil. apply substring_prefix.
  - rewrite append_cons. cbn [String.length substring]. apply IH.
Qed.

Lemma str_contains_middle (a kw b : string) :
  kw <> "" -> str_contains kw (a +:+ kw +:+ b) = true.
Proof.
  intros Hkw. unfold str_contains.
  destruct (index 0 kw (a +:+ kw +:+ b)) eqn:Hidx; [done|].
  exfalso.
  apply (index_correct3 0 (String.length a) kw _ Hidx Hkw); [lia|].
  apply substring_middle.
Qed.

Lemma prefix_app (p s : string) : String.prefix p (p +:+ s) = true.
Proof.
  induction p as [|c p IH].
  - rewrite append_nil. by destruct s.
  - rewrite append_cons. cbn [String.prefix].
    destruct (ascii_dec c c); [apply IH|done].
Qed.

Lemma cache_dir_entry_join (name : string) :
  cache_dir_entry ("../cache/" +:+ name)
  = if str_contains "/" name then None else Some name.
Proof.
  unfold cache_dir_entry. rewrite prefix_app.
  rewrite !append_cons, append_nil.
  cbn [String.length Nat.sub substring].
  by rewrite Nat.sub_0_r, substring_all.
Qed.

Lemma clean_old_cache_lookup {V} clock (store : gmap string V) path :
  clean_old_cache clock store !! path
  = if survives clock path then store !! path else None.
Proof.
  unfold clean_old_cache. apply option_eq. intros v.
  rewrite map_lookup_filter_Some. cbn [fst].
  destruct (survives clock path).
  - split; [by intros [? _]|by intros ?].
  - split; [by intros [_ ?]|done].
Qed.

Lemma is_digit_underscore c : is_digit c = true -> Ascii.eqb c "_" = false.
Proof.
  destruct (Ascii.eqb_spec c "_") as [->|]; [|done]. by vm_compute.
Qed.

(** The label pattern on a name that ends in [_<label>.pkl]: it matches
    exactly when the label has the length the pattern asks for. *)
Lemma label_match_name n stem label :
  forallb is_digit (list_ascii_of_string label) = true ->
  label_match n (stem +:+ "_" +:+ label +:+ ".pkl")
  = if (n =? String.length label)%nat then Some label else None.
Proof.
  intros Hdigits. unfold label_match.
  set (DL := rev (list_ascii_of_string label)).
  set (RS := rev (list_ascii_of_string stem)).
  assert (Hrev : rev_before_end
                   (list_ascii_of_string (stem +:+ "_" +:+ label +:+ ".pkl"))
                 = ("l" :: "k" :: "p" :: "." :: DL ++ "_" :: RS)%char).
  { unfold rev_before_end. rewrite !list_ascii_app.
    cbn [list_ascii_of_string]. rewrite !rev_app_distr. cbn [rev app].
    rewrite <- !app_assoc. by cbn [app Ascii.eqb Bool.eqb]. }
  rewrite Hrev.
  assert (HDLlen : length DL = String.length label).
  { unfold DL. by rewrite length_rev, string_length_list. }
  assert (HDLdig : forallb is_digit DL = true).
  { unfold DL. rewrite forallb_forall in *. intros c Hc.
    apply Hdigits. by apply in_rev. }
  rewrite <- HDLlen.
  destruct (Nat.eqb_spec n (length DL)) as [->|Hne].
  - rewrite take_app_length, drop_app_length, Nat.eqb_refl, HDLdig.
    cbn [andb Ascii.eqb Bool.eqb]. unfold DL.
    by rewrite rev_involutive, string_of_list_ascii_of_string.
  - destruct (Nat.lt_ge_cases n (length DL)) as [Hlt|Hge].
    + rewrite take_app_le, drop_app_le by lia.
      destruct (_ && _); [|done].
      destruct (drop n DL) as [|c rest] eqn:Hdrop.
      { apply (f_equal length) in Hdrop. rewrite length_drop in Hdrop.
        simpl in Hdrop. lia. }
      cbn [app]. rewrite is_digit_underscore; [done|].
      rewrite forallb_forall in HDLdig. apply HDLdig.
      apply list_elem_of_In. apply (subseteq_drop n DL). rewrite Hdrop. set_solver.
    + rewrite take_app_ge by lia.
      replace (n - length DL)%nat with (S (n - length DL - 1)) by lia.
      cbn [take]. rewrite forallb_app. cbn [forallb].
      change (is_digit "_") with false.
      cbn [andb]. by rewrite !andb_false_r.
Qed.

Lemma cache_filepath_name filename args kwargs label :
  cache_filepath filename args kwargs label
  = "../cache/" +:+ cache_filename filename args kwargs label.
Proof. reflexivity. Qed.

Lemma cache_filename_stem filename args kwargs label :
  cache_filename filename args kwargs label
  = (filename +:+ "_" +:+ params_str args kwargs) +:+ "_" +:+ label +:+ ".pkl".
Proof. unfold cache_filename. by rewrite !string_app_assoc. Qed.

Lemma bucket_label_cases clock frequency :
  (bucket_label clock frequency = hour_label clock /\
   String.eqb frequency "hourly" = true) \/
  (bucket_label clock frequency = day_label clock /\
   String.eqb frequency "hourly" = false).
Proof. unfold bucket_label. destruct (String.eqb frequency "hourly"); auto. Qed.

(** What the sweep decides for a file named by [cache_data], when the name
    is not a base name: it goes exactly when its label differs from the
    current label of its own granularity. *)
Lemma swept_cache_filename clock clock' filename args kwargs frequency :
  clock_labels_ok clock ->
  str_contains "_base.pkl"
    (cache_filename filename args kwargs (bucket_label clock frequency)) = false ->
  swept clock'
    (cache_filename filename args kwargs (bucket_label clock frequency))
  = negb (String.eqb (bucket_label clock frequency)
                     (bucket_label clock' frequency)).
Proof.
  intros [[Hlen10 Hdig10] [Hlen8 Hdig8]] Hbase. unfold swept. rewrite Hbase.
  rewrite cache_filename_stem. unfold bucket_label.
  destruct (String.eqb frequency "hourly").
  - rewrite !label_match_name by done. rewrite Hlen10. cbn [Nat.eqb].
    by destruct (String.eqb (hour_label clock) (hour_label clock')).
  - rewrite !label_match_name by done. rewrite Hlen8. by cbn [Nat.eqb].
Qed.

(** The base tables of the incremental history are never swept. *)
Theorem clean_old_cache_keeps_base {V} clock (store : gmap string V)
    base_filename :
  clean_old_cache clock store !! base_filepath base_filename
  = store !! base_filepath base_filename.
Proof.
  rewrite clean_old_cache_lookup. unfold survives, base_filepath.
  rewrite cache_dir_entry_join.
  destruct (str_contains "/" _); [done|]. unfold swept.
  pose proof (str_contains_middle base_filename "_base.pkl" "" ltac:(done)) as H.
  change ("_base.pkl" +:+ "") with "_base.pkl" in H. by rewrite H.
Qed.

(** A result stored by [cache_data] survives every sweep made while the
    label of its bucket is still the current one. *)
Theorem clean_old_cache_keeps_current_bucket {V} clock clock' filename args
    kwargs frequency (store : gmap string V) :
  clock_labels_ok clock ->
  bucket_label clock' frequency = bucket_label clock frequency ->
  let path := cache_filepath filename args kwargs (bucket_label clock frequency) in
  clean_old_cache clock' store !! path = store !! path.
Proof.
  intros Hok Hsame path. rewrite clean_old_cache_lookup.
  unfold survives, path. rewrite cache_filepath_name, cache_dir_entry_join.
  destruct (str_contains "/" _); [done|].
  destruct (str_contains "_base.pkl"
              (cache_filename filename args kwargs (bucket_label clock frequency)))
    eqn:Hbase.
  - unfold swept. by rewrite Hbase.
  - rewrite (swept_cache_filename clock clock') by done.
    by rewrite Hsame, String.eqb_refl.
Qed.

(** Once the label of its bucket has rolled over, a result stored by
    [cache_data] directly in the cache directory is removed by the sweep,
    unless its name contains [_base.pkl]. *)
Theorem clean_old_cache_sweeps_stale_bucket {V} clock clock' filename args
    kwargs frequency (store : gmap string V) :
  clock_labels_ok clock ->
  bucket_label clock' frequency <> bucket_label clock frequency ->
  let name :=
    cache_filename filename args kwargs (bucket_label clock frequency) in
  str_contains "/" name = false ->
  str_contains "_base.pkl" name = false ->
  clean_old_cache clock' store
    !! cache_filepath filename args kwargs (bucket_label clock frequency) = None.
Proof.
  intros Hok Hdiff name Hslash Hbase. rewrite clean_old_cache_lookup.
  unfold survives. rewrite cache_filepath_name, cache_dir_entry_join.
  fold name. rewrite Hslash. unfold name.
  rewrite (swept_cache_filename clock clock') by done.
  destruct (String.eqb_spec (bucket_label clock frequency)
                            (bucket_label clock' frequency)) as [Heq|]; [|done].
  by destruct Hdiff.
Qed.

Lemma clean_old_cache_keeps_current_bucket_witness :
  let files1 :=
    files (cache_data demo_clock "bond_etf" (fun _ => Ok ten_rows) []
                      [("symbol", "511260")] "daily" fresh_world).2 in
  let path := cache_filepath "bond_etf" [] [("symbol", "511260")] "20240102" in
  clean_old_cache (mkClock "2024010215" "20240102") files1 !! path
  = Some ten_rows.
Proof.
  intros files1 path. transitivity (files1 !! path); [|reflexivity].
  apply (clean_old_cache_keeps_current_bucket demo_clock
           (mkClock "2024010215" "20240102") "bond_etf" []
           [("symbol", "511260")] "daily" files1).
  - repeat split.
  - reflexivity.
Defined.

Lemma clean_old_cache_sweeps_stale_bucket_witness :
  let files1 :=
    files (cache_data demo_clock "zt_pool" (fun _ => Ok ten_rows) [] []
                      "hourly" fresh_world).2 in
  files1 !! demo_path = Some ten_rows /\
  clean_old_cache (mkClock "2024010210" "20240102") files1 !! demo_path = None.
Proof.
  intros files1. split; [reflexivity|].
  apply (clean_old_cache_sweeps_stale_bucket demo_clock
           (mkClock "2024010210" "20240102") "zt_pool" [] [] "hourly" files1).
  - repeat split.
  - vm_compute. discriminate.
  - reflexivity.
  - reflexivity.
Defined.

(** ** The session clock *)

Lemma Qle_bool_false a b : Qle_bool a b = false -> (b < a)%Q.
Proof.
  intros E. apply Qnot_le_lt. intros Hle. apply Qle_bool_iff in Hle. congruence.
Qed.

(** The session clock of a day that is not known to be a non-trading day,
    branch by branch. *)
Lemma elapsed_trading_cases a t :
  is_trading_day a <> Some false ->
  let m := _get_elapsed_trading_minutes a t in
  ((t < 34200 /\ m == 0) \/
   (34200 <= t <= 41400 /\ m == (t - 34200) * (1 # 60)) \/
   (41400 < t < 46800 /\ m == 120) \/
   (46800 <= t <= 54000 /\ m == 120 + (t - 46800) * (1 # 60)) \/
   (54000 < t /\ m == 240))%Q.
Proof.
  intros Htd. cbn zeta.
  assert (Hbody : _get_elapsed_trading_minutes a t =
    (if Qlt_bool t 34200 then 0
     else if Qle_bool t 41400 then (t - 34200) / 60
     else if Qlt_bool t 46800 then 120
     else if Qle_bool t 54000 then 120 + (t - 46800) / 60
     else 240)%Q).
  { unfold _get_elapsed_trading_minutes.
    by destruct (is_trading_day a) as [[]|]. }
  rewrite Hbody. clear Hbody.
  destruct (Qlt_bool t 34200) eqn:E1.
  { apply Qlt_bool_true in E1. left. split; [done|reflexivity]. }
  apply Qlt_bool_false in E1.
  destruct (Qle_bool t 41400) eqn:E2.
  { apply Qle_bool_iff in E2. right; left. split; [done|reflexivity]. }
  apply Qle_bool_false in E2.
  destruct (Qlt_bool t 46800) eqn:E3.
  { apply Qlt_bool_true in E3. do 2 right; left. split; [done|reflexivity]. }
  apply Qlt_bool_false in E3.
  destruct (Qle_bool t 54000) eqn:E4.
  { apply Qle_bool_iff in E4. do 3 right; left. split; [done|reflexivity]. }
  apply Qle_bool_false in E4.
  do 4 right. split; [done|reflexivity].
Qed.

Lemma elapsed_non_trading a t :
  is_trading_day a = Some false -> _get_elapsed_trading_minutes a t = 0%Q.
Proof. intros Htd. unfold _get_elapsed_trading_minutes. by rewrite Htd. Qed.

(** The elapsed trading minutes lie between 0 and 240, never decrease as
    the day goes on, and stand at 120 throughout the lunch break. *)
Theorem elapsed_trading_minutes_profile a t1 t2 :
  (t1 <= t2)%Q ->
  (0 <= _get_elapsed_trading_minutes a t1 <= 240)%Q /\
  (_get_elapsed_trading_minutes a t1 <= _get_elapsed_trading_minutes a t2)%Q /\
  (is_trading_day a <> Some false -> (41400 <= t1 <= 46800)%Q ->
     _get_elapsed_trading_minutes a t1 == 120)%Q.
Proof.
  intros Hle.
  destruct (decide (is_trading_day a = Some false)) as [Htd|Hnf].
  { rewrite !(elapsed_non_trading a _ Htd). repeat split; try lra. done. }
  pose proof (elapsed_trading_cases a t1 Hnf) as C1.
  pose proof (elapsed_trading_cases a t2 Hnf) as C2.
  cbn zeta in C1, C2.
  destruct C1 as [[B1 H1]|[[B1 H1]|[[B1 H1]|[[B1 H1]|[B1 H1]]]]];
    destruct C2 as [[B2 H2]|[[B2 H2]|[[B2 H2]|[[B2 H2]|[B2 H2]]]]];
    rewrite H1, H2; repeat split; try intros _ ?; lra.
Qed.

Lemma elapsed_trading_minutes_profile_witness :
  (0 <= _get_elapsed_trading_minutes sentiment_input 36000 <= 240)%Q /\
  (_get_elapsed_trading_minutes sentiment_input 36000
   <= _get_elapsed_trading_minutes sentiment_input 50400)%Q.
Proof.
  destruct (elapsed_trading_minutes_profile sentiment_input 36000 50400)
    as (Hb & Hm & _); [discriminate|].
  split; [exact Hb|exact Hm].
Defined.

(** ** The northbound streak *)

Lemma streak_loop_nonneg_run run rest s :
  Forall (fun v => fge v (Fin 0) = true) run -> 0 <= s ->
  streak_loop (run ++ rest) s = streak_loop rest (s + Z.of_nat (length run)).
Proof.
  intros Hrun. revert s. induction Hrun as [|v run Hv _ IH]; intros s Hs.
  - simpl. f_equal. lia.
  - cbn [app streak_loop length]. rewrite Hv.
    rewrite (proj2 (Z.geb_le _ _)) by lia.
    rewrite IH by lia. f_equal. lia.
Qed.

Lemma streak_loop_neg_run run rest s :
  Forall (fun v => fge v (Fin 0) = false) run -> s <= 0 ->
  streak_loop (run ++ rest) s = streak_loop rest (s - Z.of_nat (length run)).
Proof.
  intros Hrun. revert s. induction Hrun as [|v run Hv _ IH]; intros s Hs.
  - simpl. f_equal. lia.
  - cbn [app streak_loop length]. rewrite Hv.
    rewrite (proj2 (Z.leb_le _ _)) by lia.
    rewrite IH by lia. f_equal. lia.
Qed.

Lemma streak_loop_stops_pos rest s :
  0 < s ->
  match rest with
  | v :: _ => fge v (Fin 0) = false
  | [] => True
  end ->
  streak_loop rest s = s.
Proof.
  intros Hs. destruct rest as [|v rest]; [done|]. intros Hv. cbn [streak_loop].
  rewrite Hv. by rewrite (proj2 (Z.leb_gt _ _)) by lia.
Qed.

Lemma streak_loop_stops_neg rest s :
  s < 0 ->
  match rest with
  | v :: _ => fge v (Fin 0) = true
  | [] => True
  end ->
  streak_loop rest s = s.
Proof.
  intros Hs. destruct rest as [|v rest]; [done|]. intros Hv. cbn [streak_loop].
  rewrite Hv. destruct (Z.geb_spec s 0); [lia|done].
Qed.

Lemma preceded_by_rev_head nonneg pre :
  preceded_by nonneg pre ->
  match rev pre with
  | v :: _ => fge v (Fin 0) = nonneg
  | [] => True
  end.
Proof.
  unfold preceded_by. destruct pre as [|x pre] using rev_ind; [done|].
  rewrite last_snoc, rev_app_distr. done.
Qed.

(** The streak counts the days of the latest run of same-sign flows: when
    the series ends with a run of non-negative values preceded by a
    negative one (or by nothing), the streak is the length of the run; for
    a run of negative values it is minus the length.  A series with at
    least one value therefore never has the streak 0. *)
Theorem flow_streak_counts_last_run pre run :
  run <> [] ->
  (Forall (fun v => fge v (Fin 0) = true) run -> preceded_by false pre ->
     flow_streak (pre ++ run) = Z.of_nat (length run)) /\
  (Forall (fun v => fge v (Fin 0) = false) run -> preceded_by true pre ->
     flow_streak (pre ++ run) = - Z.of_nat (length run)) /\
  flow_streak (pre ++ run) <> 0.
Proof.
  intros Hne.
  assert (Hlen : (0 < length run)%nat) by (destruct run; [done|simpl; lia]).
  split; [|split].
  - intros Hrun Hpre. unfold flow_streak. rewrite rev_app_distr.
    rewrite streak_loop_nonneg_run; [|by apply Forall_rev|lia].
    rewrite length_rev. rewrite streak_loop_stops_pos; [lia|lia|].
    by apply preceded_by_rev_head.
  - intros Hrun Hpre. unfold flow_streak. rewrite rev_app_distr.
    rewrite streak_loop_neg_run; [|by apply Forall_rev|lia].
    rewrite length_rev. rewrite streak_loop_stops_neg; [lia|lia|].
    by apply preceded_by_rev_head.
  - unfold flow_streak. rewrite rev_app_distr.
    destruct (rev run) as [|v vs] eqn:Hrev.
    { apply (f_equal (@length _)) in Hrev. rewrite length_rev in Hrev.
      simpl in Hrev. lia. }
    cbn [app streak_loop]. change (0 >=? 0) with true. change (0 <=? 0) with true.
    cbn iota.
    assert (Hpos : forall l s, 0 < s -> 0 < streak_loop l s).
    { induction l as [|x l IH]; intros s Hs; cbn [streak_loop]; [done|].
      destruct (fge x (Fin 0)).
      - rewrite (proj2 (Z.geb_le _ _)) by lia. apply IH. lia.
      - by rewrite (proj2 (Z.leb_gt _ _)) by lia. }
    assert (Hneg : forall l s, s < 0 -> streak_loop l s < 0).
    { induction l as [|x l IH]; intros s Hs; cbn [streak_loop]; [done|].
      destruct (fge x (Fin 0)).
      - destruct (Z.geb_spec s 0); [lia|done].
      - rewrite (proj2 (Z.leb_le _ _)) by lia. apply IH. lia. }
    destruct (fge v (Fin 0)).
    + specialize (Hpos (vs ++ rev pre) (0 + 1) ltac:(lia)). lia.
    + specialize (Hneg (vs ++ rev pre) (0 - 1) ltac:(lia)). lia.
Qed.

Lemma flow_streak_counts_last_run_witness :
  flow_streak [Fin 12; Fin (-3); Fin 5; Fin 0; Fin 8] = 3 /\
  flow_streak [Fin 12; Fin (-3); Fin (-1)] = -2.
Proof.
  split.
  - apply (proj1 (flow_streak_counts_last_run [Fin 12; Fin (-3)]
                    [Fin 5; Fin 0; Fin 8] ltac:(done))).
    + repeat constructor.
    + reflexivity.
  - apply (proj1 (proj2 (flow_streak_counts_last_run [Fin 12]
                           [Fin (-3); Fin (-1)] ltac:(done)))).
    + repeat constructor.
    + reflexivity.
Defined.

(** ** The range of the sector heat *)

Lemma count_fin_cons f x xs :
  count_fin f (x :: xs)
  = (match x with Fin q => if f q then 1 else 0 | NaN => 0 end) + count_fin f xs.
Proof.
  unfold count_fin. simpl. destruct x as [|q]; [done|].
  destruct (f q); simpl; lia.
Qed.

Lemma count_fin_nonneg f xs : 0 <= count_fin f xs.
Proof. unfold count_fin. lia. Qed.

Lemma count_fin_less_equal q xs :
  count_fin (fun q' => Qlt_bool q' q) xs + count_fin (fun q' => Qeq_bool q' q) xs
  <= count_fin (fun _ => true) xs.
Proof.
  induction xs as [|x xs IH]; [done|]. rewrite !count_fin_cons.
  destruct x as [|q']; [lia|].
  destruct (Qlt_bool q' q) eqn:Hlt; destruct (Qeq_bool q' q) eqn:Heq; try lia.
  apply Qlt_bool_true in Hlt. apply Qeq_bool_iff in Heq.
  rewrite Heq in Hlt. by apply Qlt_irrefl in Hlt.
Qed.

Lemma count_fin_equal_self q xs :
  In (Fin q) xs -> 1 <= count_fin (fun q' => Qeq_bool q' q) xs.
Proof.
  induction xs as [|x xs IH]; [done|]. rewrite count_fin_cons.
  pose proof (count_fin_nonneg (fun q' => Qeq_bool q' q) xs).
  intros [-> | Hin].
  - rewrite (proj2 (Qeq_bool_iff q q)) by reflexivity. lia.
  - specialize (IH Hin). destruct x as [|q']; [lia|].
    destruct (Qeq_bool q' q); lia.
Qed.

(** A percentile rank is NaN or lies in (0, 1]. *)
Lemma rank_pct_range xs x :
  In x (rank_pct xs) -> x = NaN \/ exists r, x = Fin r /\ (0 < r <= 1)%Q.
Proof.
  unfold rank_pct. intros Hin. apply in_map_iff in Hin as (y & <- & Hy).
  destruct y as [|q]; [by left|]. right. eexists. split; [done|].
  pose proof (count_fin_less_equal q xs) as Hsum.
  pose proof (count_fin_equal_self q xs Hy) as Heq.
  pose proof (count_fin_nonneg (fun q' => Qlt_bool q' q) xs) as Hless.
  set (l := count_fin (fun q' => Qlt_bool q' q) xs) in *.
  set (e := count_fin (fun q' => Qeq_bool q' q) xs) in *.
  set (n := count_fin (fun _ => true) xs) in *.
  assert (HL : (0 <= inject_Z l)%Q).
  { change 0%Q with (inject_Z 0). by rewrite <- Zle_Qle. }
  assert (HE : (1 <= inject_Z e)%Q).
  { change 1%Q with (inject_Z 1). by rewrite <- Zle_Qle. }
  assert (HN : (inject_Z l + inject_Z e <= inject_Z n)%Q).
  { rewrite <- inject_Z_plus. by rewrite <- Zle_Qle. }
  assert (Hhalf : ((inject_Z e + 1) / 2 == (inject_Z e + 1) * (1 # 2))%Q)
    by reflexivity.
  rewrite Hhalf. split.
  - apply Qlt_shift_div_l; lra.
  - apply Qle_shift_div_r; lra.
Qed.

Lemma Qfloor_bounds y (N : Z) :
  (0 <= y <= inject_Z N)%Q -> 0 <= round_half_even y <= N.
Proof.
  intros [Hlo Hhi]. unfold round_half_even.
  pose proof (Qfloor_le y) as Hfl. pose proof (Qlt_floor y) as Hfu.
  assert (H0 : 0 <= Qfloor y).
  { change 0 with (Qfloor 0). by apply Qfloor_resp_le. }
  assert (HN : Qfloor y <= N).
  { rewrite <- (Qfloor_Z N). by apply Qfloor_resp_le. }
  destruct (Qlt_bool (y - inject_Z (Qfloor y)) (1 # 2)) eqn:Hd; [lia|].
  apply Qlt_bool_false in Hd.
  assert (Qfloor y < N).
  { destruct (Z.eq_dec (Qfloor y) N) as [HeqN|]; [|lia].
    rewrite HeqN in Hd. lra. }
  destruct (Qlt_bool _ _); [lia|]. destruct (Z.even _); lia.
Qed.

Lemma fround2_range q :
  (0 <= q <= 100)%Q -> exists r, fround2 (Fin q) = Fin r /\ (0 <= r <= 100)%Q.
Proof.
  intros Hq. eexists. split; [reflexivity|].
  destruct (Qfloor_bounds (q * 100) 10000) as [Hlo Hhi].
  { change (inject_Z 10000) with 10000%Q. lra. }
  rewrite Zle_Qle in Hlo, Hhi.
  change (inject_Z 0) with 0%Q in Hlo. change (inject_Z 10000) with 10000%Q in Hhi.
  unfold Qdiv. change (/ 100)%Q with (1 # 100)%Q. lra.
Qed.

Lemma times100_score_ok xs x :
  In x (map (fun r => fmul r (Fin 100)) (rank_pct xs)) -> score_ok x.
Proof.
  intros Hin. apply in_map_iff in Hin as (y & <- & Hy).
  destruct (rank_pct_range xs y Hy) as [->|(r & -> & Hr)]; [by left|].
  right. eexists. split; [reflexivity|]. lra.
Qed.

Lemma spec_fund_strength_ok lib flow x :
  In x (spec_fund_strength lib flow) -> score_ok x.
Proof.
  unfold spec_fund_strength.
  assert (H50 : forall n, In x (repeat (Fin 50) n) -> score_ok x).
  { intros n Hin. apply repeat_spec in Hin as ->. right. exists 50%Q.
    split; [done|lra]. }
  destruct (assoc_lookup _ _) as [col|]; [|apply H50].
  destruct (forallb _ _); [apply H50|apply times100_score_ok].
Qed.

Lemma spec_heat_ok p f : score_ok p -> score_ok f -> heat_cell_ok (SFloat (spec_heat p f)).
Proof.
  intros [->|(a & -> & Ha)] [->|(b & -> & Hb)]; try (by left).
  destruct (fround2_range (0.7 * a + 0.3 * b)) as (r & Hr & Hrange).
  { change 0.7%Q with (7 # 10)%Q. change 0.3%Q with (3 # 10)%Q. lra. }
  right. exists r. split; [|done]. unfold spec_heat. cbn [fmul fadd fbin].
  by rewrite Hr.
Qed.

(** Every heat value stored by the sector scoring is a number between 0 and
    100, or NaN. *)
Theorem sector_heat_in_range lib flow counts :
  df_getcol flow "量价齐升家数" = Ok counts ->
  exists scored heats,
    score_sectors lib flow = Ok scored /\
    df_getcol scored "热力值" = Ok heats /\
    Forall heat_cell_ok heats.
Proof.
  intros Hc. destruct (score_sectors_heat lib flow counts Hc) as (scored & Hs & Hh).
  eexists scored, _. split; [done|]. split; [exact Hh|].
  apply Forall_forall. intros c Hin. apply list_elem_of_In in Hin.
  unfold float_cells in Hin. apply in_map_iff in Hin as (h & <- & Hin).
  unfold heat_values in Hin. apply in_map_iff in Hin as ([p f] & <- & Hpf).
  apply spec_heat_ok.
  - apply in_combine_l in Hpf. by apply (times100_score_ok _ _ Hpf).
  - apply in_combine_r in Hpf. by apply (spec_fund_strength_ok lib flow).
Qed.

Lemma sector_heat_in_range_witness :
  exists scored heats,
    score_sectors demo_lib three_sectors = Ok scored /\
    df_getcol scored "热力值" = Ok heats /\
    Forall heat_cell_ok heats.
Proof.
  apply (sector_heat_in_range demo_lib three_sectors [SInt 4; SInt 0; SInt 4]).
  reflexivity.
Defined.

(** ** The scoring engine: when nothing is scored *)

(** Without analysed ETFs, or without a non-empty heat map, the scoring
    returns at once: it neither raises nor writes [final_ranking] nor
    touches anything else. *)
Theorem comprehensive_scoring_skips lib a :
  analysis_result a !! "etf_technical" = None \/
  analysis_result a !! "etf_technical" = Some (REtfs []) \/
  ((exists etfs, analysis_result a !! "etf_technical" = Some (REtfs etfs)) /\
   (analysis_result a !! "sector_heat_map" = None \/
    exists df, analysis_result a !! "sector_heat_map" = Some (RFrame df) /\
               df_empty df = true)) ->
  comprehensive_scoring lib a = (Ok tt, a).
Proof.
  unfold comprehensive_scoring.
  intros [-> | [-> | [[etfs ->] Hheat]]]; [done|done|].
  cbn [not_truthy]. case_bool_decide; [done|].
  destruct Hheat as [-> | (df & -> & Hempty)].
  - done.
  - unfold default, value_empty, id. by rewrite Hempty.
Qed.

Lemma comprehensive_scoring_skips_witness :
  comprehensive_scoring demo_lib sentiment_input = (Ok tt, sentiment_input) /\
  comprehensive_scoring demo_lib scoring_input = (Ok tt, scoring_input).
Proof.
  split.
  - apply (comprehensive_scoring_skips demo_lib sentiment_input).
    left. reflexivity.
  - apply (comprehensive_scoring_skips demo_lib scoring_input).
    right; right. split; [by eexists|]. left. reflexivity.
Defined.

